(** * Analisador: the budget / expenditure reconciliation of [src/app.py]

    A shallow embedding of [processar_dados_streamlit] (src/app.py, lines
    12-87) and the properties of it that the specification states.

    The embedding starts after the two spreadsheets have been read (lines
    23-40 belong to the reader): its inputs are the two parsed frames.

    Scope of the model, stated once:
    - a frame is its ordered list of column names (all strings, pairwise
      distinct, as the pandas readers deliver them) and its rows; a row maps
      a column name to a cell;
    - a cell is missing ([NA]: NaN, None, pd.NA), a number or a text;
      numbers are exact rationals, so the rounding and the comparisons of the
      source are modelled and the inexactness of binary floating point is
      not;
    - a text met where the source does arithmetic is reported as
      [TypeError]; pandas raises there when a number meets a text, and a
      column holding nothing but text is outside the typed tables the
      specification assumes. *)

From Stdlib Require Import ZArith QArith Qcanon String Ascii DecimalString DecimalZ Sorted.
From stdpp Require Import base option list gmap strings fin_maps.

Local Open Scope Z_scope.
Local Open Scope string_scope.

(** ** Cells, rows and frames *)

Inductive cell : Type :=
| NA
| Num (q : Qc)
| Txt (s : string).

Global Instance cell_eq_dec : EqDecision cell.
Proof.
  intros x y. unfold Decision.
  decide equality; [apply Qc_eq_dec | apply string_dec].
Defined.

Global Instance cell_inhabited : Inhabited cell := populate NA.

Record DataFrame : Type := mkDataFrame {
  columns : list string;
  rows : list (gmap string cell)
}.

(** [r[c]] of one row; a column the row does not hold reads as missing. *)
Definition get (r : gmap string cell) (c : string) : cell :=
  default NA (r !! c).

Definition isna (c : cell) : bool :=
  match c with NA => true | _ => false end.

Definition zq (z : Z) : Qc := Q2Qc (inject_Z z).

(** [series == n] for an integer [n], on one cell. *)
Definition eq_int (c : cell) (n : Z) : bool :=
  match c with
  | Num q => bool_decide (q = zq n)
  | _ => false
  end.

(** ** Failures *)

Inductive exn : Type :=
| KeyError (c : string)
| TypeError.

Definition res (A : Type) : Type := exn + A.

Definition ret {A} (a : A) : res A := inr a.
Definition raise {A} (e : exn) : res A := inl e.
Definition bind {A B} (m : res A) (k : A -> res B) : res B :=
  match m with
  | inl e => inl e
  | inr a => k a
  end.

Notation "'try!' x := m 'in' k" := (bind m (fun x => k))
  (at level 10, x name, m at level 100, k at level 200).

Fixpoint mapM {A B} (f : A -> res B) (l : list A) : res (list B) :=
  match l with
  | [] => ret []
  | a :: l' => try! b := f a in try! bs := mapM f l' in ret (b :: bs)
  end.

(** What the caller of [processar_dados_streamlit] observes. *)
Inductive Outcome : Type :=
| Returned (df : DataFrame)          (* line 82: the table *)
| Warned (df : DataFrame)            (* lines 69-70: st.warning, then the table *)
| MissingColumnError (c : string)    (* lines 74-75: st.error, then None *)
| UnexpectedError (e : exn).         (* lines 84-87: st.error, then None *)

(** ** Column names of the source *)

Definition FISCAL_YEAR : string := "Fiscal Year".
Definition WBS_ELEMENT : string := "WBS Element".
Definition PERIOD : string := "Period".
Definition VALUE : string := "Vbl. value/Obj. curr".
Definition TOTAL : string := "Total".
Definition TOTAL_ORCADO : string := "Total Orcado".
Definition TOTAL_ACUMULADO : string := "Total Acumulado".
Definition SALDO : string := "Saldo".
Definition coluna_gasto_temp : string := "gasto_temp_para_atualizar".
Definition ORCAMENTO_REAL : string := "OrcamentoRealPorLinha".

(** ** Frame operations *)

Definition has_column (df : DataFrame) (c : string) : bool :=
  bool_decide (c ∈ columns df).

(** [df[c] = f(row)]: overwrites the column, or appends it as the last one. *)
Definition assign (c : string) (f : gmap string cell -> cell) (df : DataFrame)
  : DataFrame :=
  {| columns := if has_column df c then columns df else columns df ++ [c];
     rows := fmap (fun r => <[c := f r]> r) (rows df) |}.

(** [df[c] = f(row)] where computing the value may fail. *)
Definition assign_res (c : string) (f : gmap string cell -> res cell)
    (df : DataFrame) : res DataFrame :=
  try! rs := mapM (fun r => try! v := f r in ret (<[c := v]> r)) (rows df) in
  ret {| columns := if has_column df c then columns df else columns df ++ [c];
         rows := rs |}.

(** [df.drop(columns=[c])]; the source only drops columns that exist. *)
Definition drop (c : string) (df : DataFrame) : DataFrame :=
  {| columns := filter (fun c' => c' <> c) (columns df);
     rows := fmap (delete c) (rows df) |}.

(** Lines 43-44: [df.loc[:, ~df.columns.str.startswith('Unnamed')]]. *)
Definition unnamed (c : string) : bool := String.prefix "Unnamed" c.

Definition drop_unnamed (df : DataFrame) : DataFrame :=
  {| columns := filter (fun c => unnamed c = false) (columns df);
     rows := fmap (filter (fun kv : string * cell => unnamed kv.1 = false))
                 (rows df) |}.

(** ** Sums and rounding *)

(** A pandas sum skips the missing values; an empty sum is 0. *)
Fixpoint sum_cells (l : list cell) : res Qc :=
  match l with
  | [] => ret (zq 0)
  | NA :: l' => sum_cells l'
  | Num q :: l' => try! s := sum_cells l' in ret (Qcplus q s)
  | Txt _ :: _ => raise TypeError
  end.

(** [round(0)]: to the nearest integer, a tie going to the even one. *)
Definition round_half_even (q : Qc) : Qc :=
  let n := Qnum (this q) in
  let d := Z.pos (Qden (this q)) in
  let f := n / d in
  let r2 := 2 * (n mod d) in
  zq (if (r2 <? d)%Z then f
      else if (d <? r2)%Z then f + 1
      else if Z.even f then f else f + 1).

(** [.fillna(0).round(0)] on one cell of the joined amount; on the column
    of line 60, which holds missing values only, it gives 0 as well. *)
Definition fillna_round (c : cell) : cell :=
  match c with
  | NA => Num (zq 0)
  | Num q => Num (round_half_even q)
  | Txt s => Txt s
  end.

(** ** Step 1, line 47: the grouped expenditures

    [df_gastos.groupby(['Fiscal Year', 'WBS Element', 'Period'])
       ['Vbl. value/Obj. curr'].sum().reset_index()].
    A row with a missing key cell belongs to no group (dropna). pandas lists
    the groups in key order; the model lists them in order of first
    appearance, which nothing downstream observes (the table is only
    filtered and then joined from the left). *)

Definition chave : Type := cell * cell * cell.

Definition chave_de (r : gmap string cell) : chave :=
  (get r FISCAL_YEAR, get r WBS_ELEMENT, get r PERIOD).

Definition chave_valida (k : chave) : bool :=
  negb (isna k.1.1) && negb (isna k.1.2) && negb (isna k.2).

Definition linhas_validas (df : DataFrame) : list (gmap string cell) :=
  filter (fun r => chave_valida (chave_de r) = true) (rows df).

Definition valores_de (df : DataFrame) (k : chave) : list cell :=
  fmap (fun r => get r VALUE)
      (filter (fun r => chave_de r = k) (linhas_validas df)).

Definition gastos_agrupados (df_gastos : DataFrame) : res (list (chave * Qc)) :=
  if negb (has_column df_gastos FISCAL_YEAR) then raise (KeyError FISCAL_YEAR)
  else if negb (has_column df_gastos WBS_ELEMENT) then raise (KeyError WBS_ELEMENT)
  else if negb (has_column df_gastos PERIOD) then raise (KeyError PERIOD)
  else if negb (has_column df_gastos VALUE) then raise (KeyError VALUE)
  else
    mapM (fun k => try! s := sum_cells (valores_de df_gastos k) in ret (k, s))
         (remove_dups (fmap chave_de (linhas_validas df_gastos))).

(** ** Step 1, lines 50-64: one period of the loop *)

(** Line 51: [f'Period {periodo_num}']. *)
Definition target_col (p : Z) : string :=
  "Period " ++ NilZero.string_of_int (Z.to_int p).

(** Line 54: the groups of this period and of the year [ano]. *)
Definition gastos_do_periodo (ga : list (chave * Qc)) (ano p : Z)
  : list (chave * Qc) :=
  filter (fun g : chave * Qc =>
            eq_int g.1.2 p && eq_int g.1.1.1 ano = true) ga.

(** The join condition of line 58: same project code and same fiscal year.
    pandas joins two missing keys with each other, as equality of cells
    does. *)
Definition casa (r : gmap string cell) (g : chave * Qc) : Prop :=
  get r WBS_ELEMENT = g.1.1.2 /\ get r FISCAL_YEAR = g.1.1.1.

Global Instance casa_dec r g : Decision (casa r g).
Proof. unfold casa. apply _. Defined.

(** Line 58: [pd.merge(df_resultado, gastos_do_periodo[[...]], on=['WBS
    Element', 'Fiscal Year'], how='left')]: every row of the left table, in
    its order, once per matching row of the right table, and once with a
    missing amount when none matches. *)
Definition merge_left (df : DataFrame) (gp : list (chave * Qc)) : res DataFrame :=
  if negb (has_column df WBS_ELEMENT) then raise (KeyError WBS_ELEMENT)
  else if negb (has_column df FISCAL_YEAR) then raise (KeyError FISCAL_YEAR)
  else
    ret {| columns := columns df ++ [coluna_gasto_temp];
           rows :=
             flat_map
               (fun r =>
                  match filter (casa r) gp with
                  | [] => [<[coluna_gasto_temp := NA]> r]
                  | ms => fmap (fun g : chave * Qc =>
                                 <[coluna_gasto_temp := Num g.2]> r) ms
                  end)
               (rows df) |}.

(** Lines 61-63: the rows of the year [ano] take the rounded amount. *)
Definition atualizar_linha (ano : Z) (target : string) (r : gmap string cell)
  : gmap string cell :=
  if eq_int (get r FISCAL_YEAR) ano
  then <[target := fillna_round (get r coluna_gasto_temp)]> r
  else r.

(** The body of the loop, lines 51-64. When the budget already has a column
    called [gasto_temp_para_atualizar] the merge renames both columns of
    that name (suffixes _x and _y), and line 62 finds none: KeyError. *)
Definition atualizar_periodo (ga : list (chave * Qc)) (ano : Z)
    (df_resultado : DataFrame) (periodo_num : Z) : res DataFrame :=
  let target := target_col periodo_num in
  if negb (has_column df_resultado target) then ret df_resultado
  else
    let gp := gastos_do_periodo ga ano periodo_num in
    try! df1 :=
      match gp with
      | [] => ret (assign coluna_gasto_temp (fun _ => NA) df_resultado)
      | _ =>
          try! m := merge_left df_resultado gp in
          if has_column df_resultado coluna_gasto_temp
          then raise (KeyError coluna_gasto_temp)
          else ret m
      end in
    if negb (has_column df1 FISCAL_YEAR) then raise (KeyError FISCAL_YEAR)
    else
      ret (drop coluna_gasto_temp
             {| columns := columns df1;
                rows := fmap (atualizar_linha ano target) (rows df1) |}).

(** Line 50: [range(periodo_inicial, periodo_final + 1)]. *)
Definition periodos (periodo_inicial periodo_final : Z) : list Z :=
  seqZ periodo_inicial (periodo_final + 1 - periodo_inicial).

Fixpoint etapa1 (ga : list (chave * Qc)) (ano : Z) (ps : list Z)
    (df_resultado : DataFrame) : res DataFrame :=
  match ps with
  | [] => ret df_resultado
  | p :: ps' =>
      try! df := atualizar_periodo ga ano df_resultado p in
      etapa1 ga ano ps' df
  end.

(** ** Step 2, line 67: the period columns

    [sorted([col for col in df_resultado.columns
             if re.match(r'^Period \d+$', col)])]. *)

Definition is_digit (a : ascii) : bool :=
  (48 <=? Z.of_nat (nat_of_ascii a))%Z && (Z.of_nat (nat_of_ascii a) <=? 57)%Z.

Definition newline : ascii := ascii_of_nat 10.

(** The rest of the match once a digit has been read: more digits, then the
    end of the name; Python's [$] also matches before one final newline.
    Column names are taken to be ASCII, where [\d] is 0-9. *)
Fixpoint digits_to_end (s : string) : bool :=
  match s with
  | EmptyString => true
  | String a s' =>
      if is_digit a then digits_to_end s'
      else bool_decide (a = newline) && bool_decide (s' = EmptyString)
  end.

Fixpoint strip_prefix (p s : string) : option string :=
  match p, s with
  | EmptyString, _ => Some s
  | String a p', String b s' =>
      if bool_decide (a = b) then strip_prefix p' s' else None
  | String _ _, EmptyString => None
  end.

Definition re_match_period (c : string) : bool :=
  match strip_prefix "Period " c with
  | Some (String a rest) => is_digit a && digits_to_end rest
  | _ => false
  end.

(** [sorted] on strings: ascending in the order of the character codes. *)
Fixpoint insert_sorted (x : string) (l : list string) : list string :=
  match l with
  | [] => [x]
  | y :: l' => if String.leb x y then x :: y :: l' else y :: insert_sorted x l'
  end.

Definition sorted (l : list string) : list string :=
  foldr insert_sorted [] l.

Definition colunas_periodo (df : DataFrame) : list string :=
  sorted (filter (fun c => re_match_period c = true) (columns df)).

(** ** Step 2, lines 71-81: totals, balance and masking *)

(** Line 71: [df_resultado[colunas_periodo].sum(axis=1)], for one row. *)
Definition orcamento_real_por_linha (cols : list string)
    (r : gmap string cell) : res cell :=
  try! s := sum_cells (fmap (get r) cols) in ret (Num s).

(** The rows of the group of [r] in [df.groupby(key)]. *)
Definition grupo (df : DataFrame) (key : string) (r : gmap string cell)
  : list (gmap string cell) :=
  filter (fun r' => get r' key = get r key) (rows df).

(** [df.groupby(key)[val].transform('sum')] at the row [r]: the sum over the
    group of [r], and missing for a row whose key is missing. *)
Definition transform_sum (df : DataFrame) (key val : string)
    (r : gmap string cell) : res cell :=
  if negb (has_column df key) then raise (KeyError key)
  else if isna (get r key) then ret NA
  else try! s := sum_cells (fmap (fun r' => get r' val) (grupo df key r)) in
       ret (Num s).

Definition Qcmax (x y : Qc) : Qc :=
  match Qccompare x y with Lt => y | _ => x end.

(** A pandas max skips the missing values and is missing when all are. *)
Fixpoint max_cells (l : list cell) : res cell :=
  match l with
  | [] => ret NA
  | NA :: l' => max_cells l'
  | Num q :: l' =>
      try! m := max_cells l' in
      ret (match m with Num q' => Num (Qcmax q q') | _ => Num q end)
  | Txt _ :: _ => raise TypeError
  end.

(** Line 78: [df.groupby(key)[val].transform('max')] at the row [r]. *)
Definition transform_max (df : DataFrame) (key val : string)
    (r : gmap string cell) : res cell :=
  if negb (has_column df key) then raise (KeyError key)
  else if negb (has_column df val) then raise (KeyError val)
  else if isna (get r key) then ret NA
  else max_cells (fmap (fun r' => get r' val) (grupo df key r)).

(** Line 77: the difference of two numeric columns, missing when either
    operand is (both operands are results of [transform_sum]). *)
Definition sub_cells (a b : cell) : cell :=
  match a, b with
  | Num x, Num y => Num (Qcminus x y)
  | _, _ => NA
  end.

(** Line 79: [series < series] on one row; false when either is missing. *)
Definition lt_cells (a b : cell) : bool :=
  match a, b with
  | Num x, Num y => match Qccompare x y with Lt => true | _ => false end
  | _, _ => false
  end.

(** Lines 78-80 on one row, given the maximum of its group. *)
Definition mascarar (max_ano : cell) (r : gmap string cell)
  : gmap string cell :=
  if lt_cells (get r FISCAL_YEAR) max_ano
  then <[SALDO := NA]> (<[TOTAL_ACUMULADO := NA]> (<[TOTAL_ORCADO := NA]> r))
  else r.

Definition mascarar_linhas (df : DataFrame) : res DataFrame :=
  try! rs := mapM (fun r => try! m := transform_max df WBS_ELEMENT FISCAL_YEAR r in
                            ret (mascarar m r)) (rows df) in
  ret {| columns := columns df; rows := rs |}.

Definition outcome_of (m : res Outcome) : Outcome :=
  match m with
  | inl e => UnexpectedError e
  | inr o => o
  end.

Definition etapa2 (df_resultado : DataFrame) : Outcome :=
  let cols := colunas_periodo df_resultado in
  match cols with
  | [] => Warned df_resultado
  | _ =>
      outcome_of
        (try! df1 := assign_res ORCAMENTO_REAL
                       (orcamento_real_por_linha cols) df_resultado in
         try! df2 := assign_res TOTAL_ACUMULADO
                       (transform_sum df1 WBS_ELEMENT ORCAMENTO_REAL) df1 in
         if negb (has_column df2 TOTAL) then ret (MissingColumnError TOTAL)
         else
           try! df3 := assign_res TOTAL_ORCADO
                         (transform_sum df2 WBS_ELEMENT TOTAL) df2 in
           let df4 := assign SALDO
                        (fun r => sub_cells (get r TOTAL_ORCADO)
                                            (get r TOTAL_ACUMULADO)) df3 in
           try! df5 := mascarar_linhas df4 in
           ret (Returned (drop ORCAMENTO_REAL df5)))
  end.

(** ** The function of lines 12-87, on the parsed frames *)

Definition processar_dados_streamlit (df_orcamento df_gastos : DataFrame)
    (ano periodo_inicial periodo_final : Z) : Outcome :=
  let df_orcamento := drop_unnamed df_orcamento in
  let df_gastos := drop_unnamed df_gastos in
  outcome_of
    (try! ga := gastos_agrupados df_gastos in
     try! df_resultado :=
       etapa1 ga ano (periodos periodo_inicial periodo_final) df_orcamento in
     ret (etapa2 df_resultado)).

(** ** The scenario of the specification, section 8 *)

Definition linha (l : list (string * cell)) : gmap string cell := list_to_map l.

Definition txt_P1 : cell := Txt "P1".

Definition orcamento_exemplo (a1 a2 a3 b1 b2 b3 : Qc) : DataFrame :=
  {| columns := [WBS_ELEMENT; FISCAL_YEAR; "Period 1"; "Period 2"; "Period 3"; TOTAL];
     rows :=
       [ linha [(WBS_ELEMENT, txt_P1); (FISCAL_YEAR, Num (zq 2025));
                ("Period 1", Num a1); ("Period 2", Num a2); ("Period 3", Num a3);
                (TOTAL, Num (zq 300))];
         linha [(WBS_ELEMENT, txt_P1); (FISCAL_YEAR, Num (zq 2026));
                ("Period 1", Num b1); ("Period 2", Num b2); ("Period 3", Num b3);
                (TOTAL, Num (zq 300))] ] |}.

Definition gastos_exemplo : DataFrame :=
  {| columns := [FISCAL_YEAR; WBS_ELEMENT; PERIOD; VALUE];
     rows :=
       [ linha [(FISCAL_YEAR, Num (zq 2026)); (WBS_ELEMENT, txt_P1);
                (PERIOD, Num (zq 1)); (VALUE, Num (zq 50))];
         linha [(FISCAL_YEAR, Num (zq 2026)); (WBS_ELEMENT, txt_P1);
                (PERIOD, Num (zq 1)); (VALUE, Num (zq 25))] ] |}.

(** The cell of row [i], column [c] of a returned table. *)
Definition celula (o : Outcome) (i : nat) (c : string) : option cell :=
  match o with
  | Returned df | Warned df => r ← rows df !! i; r !! c
  | _ => None
  end.

(** ** Vocabulary of the statements *)

(** The numeric suffix of a period column name, [Period <n>]. *)
Definition sufixo (c : string) : option Z :=
  match strip_prefix "Period " c with
  | Some d => Z.of_int <$> NilZero.int_of_string d
  | None => None
  end.

(** Ascending in the numeric suffix. *)
Definition ordem_numerica (l : list string) : Prop :=
  forall i j a b na nb,
    (i < j)%nat -> l !! i = Some a -> l !! j = Some b ->
    sufixo a = Some na -> sufixo b = Some nb -> na <= nb.

Definition so_colunas (cols : list string) : DataFrame :=
  {| columns := cols; rows := [] |}.

(** Ascending in the order of the character codes. *)
Definition leb_str (a b : string) : Prop := String.leb a b = true.

(** The scenario of section 8 run on the model; [a1 a2 a3] and [b1 b2 b3]
    are the period values the budget holds for 2025 and for 2026. *)
Definition cenario (a1 a2 a3 b1 b2 b3 : Qc) : Outcome :=
  processar_dados_streamlit (orcamento_exemplo a1 a2 a3 b1 b2 b3)
    gastos_exemplo 2026 1 3.

(** What section 8 expects of the scenario, word for word: in particular
    the accumulated total of the 2026 row is the sum of that row's own
    period columns. Row 0 is the 2025 row, row 1 the 2026 row. *)
Definition cenario_como_especificado (a1 a2 a3 b1 b2 b3 : Qc) : Prop :=
  let o := cenario a1 a2 a3 b1 b2 b3 in
  exists p1 p2 p3 ta : Qc,
    celula o 1 "Period 1" = Some (Num p1) /\ p1 = zq 75 /\
    celula o 1 "Period 2" = Some (Num p2) /\ p2 = zq 0 /\
    celula o 1 "Period 3" = Some (Num p3) /\ p3 = zq 0 /\
    celula o 0 "Period 1" = Some (Num a1) /\
    celula o 0 "Period 2" = Some (Num a2) /\
    celula o 0 "Period 3" = Some (Num a3) /\
    celula o 1 TOTAL_ORCADO = Some (Num (zq 600)) /\
    celula o 1 TOTAL_ACUMULADO = Some (Num ta) /\
    ta = (p1 + p2 + p3)%Qc /\
    celula o 1 SALDO = Some (Num (zq 600 - ta)%Qc) /\
    celula o 0 TOTAL_ORCADO = Some NA /\
    celula o 0 TOTAL_ACUMULADO = Some NA /\
    celula o 0 SALDO = Some NA.

(** ** The loop of step 1 seen from one row

    The join of line 58 never multiplies a row (see [merge_left_rows]), so
    each iteration acts on every row by itself. *)

(** The amount line 58 joins to the row [r]. *)
Definition junta (gp : list (chave * Qc)) (r : gmap string cell) : cell :=
  match filter (casa r) gp with
  | [] => NA
  | g :: _ => Num g.2
  end.

(** The value lines 62-63 write in [Period p] of a row of the year. *)
Definition valor_periodo (ga : list (chave * Qc)) (ano p : Z)
    (r : gmap string cell) : cell :=
  fillna_round (junta (gastos_do_periodo ga ano p) r).

(** Lines 58-64 on one row. *)
Definition linha_periodo (ga : list (chave * Qc)) (ano p : Z)
    (r : gmap string cell) : gmap string cell :=
  delete coluna_gasto_temp
    (atualizar_linha ano (target_col p)
       (<[coluna_gasto_temp := junta (gastos_do_periodo ga ano p) r]> r)).

(** Lines 50-64 on one row of a table whose columns are [cols]. *)
Fixpoint linha_etapa1 (ga : list (chave * Qc)) (ano : Z) (cols : list string)
    (ps : list Z) (r : gmap string cell) : gmap string cell :=
  match ps with
  | [] => r
  | p :: ps' =>
      linha_etapa1 ga ano cols ps'
        (if bool_decide (target_col p ∈ cols)
         then linha_periodo ga ano p r else r)
  end.

(** ** Step 2 seen from one row

    Lines 71-81 on one row, given the values the four column computations
    produce for it: the row total [v], the accumulated total [ta], the
    budgeted total [to] and the latest year [m] of its project. *)
Definition linha_etapa2 (v ta to m : cell) (r : gmap string cell)
  : gmap string cell :=
  delete ORCAMENTO_REAL
    (mascarar m
       (<[SALDO := sub_cells to ta]>
          (<[TOTAL_ORCADO := to]>
             (<[TOTAL_ACUMULADO := ta]>
                (<[ORCAMENTO_REAL := v]> r))))).

(** The fiscal years of the rows of the project [w] in a table. *)
Definition anos_do_projeto (df : DataFrame) (w : cell) : list cell :=
  fmap (fun r => get r FISCAL_YEAR)
       (filter (fun r => get r WBS_ELEMENT = w) (rows df)).

(** The columns step 2 writes. *)
Definition colunas_etapa2 : list string :=
  [ORCAMENTO_REAL; TOTAL_ACUMULADO; TOTAL_ORCADO; SALDO].

(** A row [r'] of the table [t] of line 82, and the row [r] it comes from. *)
Definition linha_retornada (t : DataFrame) (r r' : gmap string cell) : Prop :=
  exists v ta to m,
    r' = linha_etapa2 v ta to m r /\
    if isna (get r WBS_ELEMENT) then ta = NA /\ to = NA /\ m = NA
    else (exists a b, ta = Num a /\ to = Num b) /\
         max_cells (anos_do_projeto t (get r WBS_ELEMENT)) = inr m.

(** [M] is the latest fiscal year among the rows of the project [w]. *)
Definition ano_maximo (t : DataFrame) (w : cell) (M : Qc) : Prop :=
  Num M ∈ anos_do_projeto t w /\
  forall y, Num y ∈ anos_do_projeto t w -> (y <= M)%Qc.

(** The function returned the table [t], with or without the warning. *)
Definition devolve (o : Outcome) (t : DataFrame) : Prop :=
  o = Returned t \/ o = Warned t.


(** The columns the function may write or drop, for the period range
    [p_i .. p_f]; every other column of a row is only carried along. *)
Definition coluna_escrita (p_i p_f : Z) (c : string) : Prop :=
  c ∈ colunas_etapa2 \/ c = coluna_gasto_temp \/
  exists p, p_i <= p <= p_f /\ c = target_col p.

(** The table a call returned, for the examples. *)
Definition tabela_de (o : Outcome) : DataFrame :=
  match o with
  | Returned t | Warned t => t
  | _ => so_colunas []
  end.

Definition linha_de (df : DataFrame) (i : nat) : gmap string cell :=
  default ∅ (rows df !! i).

(** ** The typed tables of the specification (sections 3 and 4.1) *)

(** A cell of a numeric column: a number, or missing. *)
Definition numerica (c : cell) : bool :=
  match c with
  | Txt _ => false
  | _ => true
  end.

(** The expenditure table has its four columns, and its values are
    numeric. *)
Definition gastos_tipados (df : DataFrame) : Prop :=
  FISCAL_YEAR ∈ columns df /\ WBS_ELEMENT ∈ columns df /\
  PERIOD ∈ columns df /\ VALUE ∈ columns df /\
  Forall (fun r => numerica (get r VALUE) = true) (rows df).

(** The budget table has its two key columns and no column with the name of
    the scratch column of the loop; its fiscal years, its totals and its
    period columns are numeric. *)
Definition orcamento_tipado (df : DataFrame) : Prop :=
  WBS_ELEMENT ∈ columns df /\ FISCAL_YEAR ∈ columns df /\
  (coluna_gasto_temp ∉ columns df) /\
  Forall (fun r => numerica (get r FISCAL_YEAR) = true /\
                   numerica (get r TOTAL) = true /\
                   Forall (fun c => re_match_period c = true ->
                                    numerica (get r c) = true) (columns df))
         (rows df).

(** The numeric cells step 2 reads, once the row totals exist. *)
Definition linha_numerica (r : gmap string cell) : Prop :=
  numerica (get r FISCAL_YEAR) = true /\ numerica (get r TOTAL) = true /\
  numerica (get r ORCAMENTO_REAL) = true.

(** ** Tables for the examples *)

Definition orcamento_ex : DataFrame :=
  orcamento_exemplo (zq 10) (zq 20) (zq 30) (zq 1) (zq 2) (zq 3).

Definition tabela_ex : DataFrame :=
  tabela_de (processar_dados_streamlit orcamento_ex gastos_exemplo 2026 1 3).

(** A budget with two rows for the same project and year. *)
Definition orcamento_duplicado : DataFrame :=
  {| columns := [WBS_ELEMENT; FISCAL_YEAR; "Period 1"; TOTAL; "Unnamed: 4"];
     rows :=
       [ linha [(WBS_ELEMENT, txt_P1); (FISCAL_YEAR, Num (zq 2026));
                ("Period 1", Num (zq 7)); (TOTAL, Num (zq 100));
                ("Unnamed: 4", NA)];
         linha [(WBS_ELEMENT, txt_P1); (FISCAL_YEAR, Num (zq 2026));
                ("Period 1", Num (zq 8)); (TOTAL, Num (zq 200));
                ("Unnamed: 4", NA)];
         linha [(WBS_ELEMENT, txt_P1); (FISCAL_YEAR, Num (zq 2025));
                ("Period 1", Num (zq 9)); (TOTAL, Num (zq 300));
                ("Unnamed: 4", NA)] ] |}.

Definition tabela_duplicado : DataFrame :=
  tabela_de (processar_dados_streamlit orcamento_duplicado gastos_exemplo
               2026 1 3).




(** A budget row without a fiscal year, next to a dated row of the same
    project. *)
Definition orcamento_sem_ano : DataFrame :=
  {| columns := [WBS_ELEMENT; FISCAL_YEAR; "Period 1"; TOTAL];
     rows :=
       [ linha [(WBS_ELEMENT, txt_P1); (FISCAL_YEAR, Num (zq 2026));
                ("Period 1", Num (zq 5)); (TOTAL, Num (zq 100))];
         linha [(WBS_ELEMENT, txt_P1); (FISCAL_YEAR, NA);
                ("Period 1", Num (zq 6)); (TOTAL, Num (zq 200))] ] |}.

(** A budget and an expenditure for the period number -1, which no caller
    of the interface can select. *)
Definition orcamento_periodo_negativo : DataFrame :=
  {| columns := [WBS_ELEMENT; FISCAL_YEAR; "Period -1"];
     rows :=
       [ linha [(WBS_ELEMENT, txt_P1); (FISCAL_YEAR, Num (zq 2026));
                ("Period -1", Num (zq 5))] ] |}.

Definition gastos_periodo_negativo : DataFrame :=
  {| columns := [FISCAL_YEAR; WBS_ELEMENT; PERIOD; VALUE];
     rows :=
       [ linha [(FISCAL_YEAR, Num (zq 2026)); (WBS_ELEMENT, txt_P1);
                (PERIOD, Num (zq (-1))); (VALUE, Num (zq 50))] ] |}.

(** ** Vocabulary of the further properties *)

(** The columns after [df[c] = ...]: [c] stays where it is, or is appended. *)
Definition com_coluna (c : string) (cols : list string) : list string :=
  if bool_decide (c ∈ cols) then cols else cols ++ [c].

(** The columns of the table of line 82, from the columns step 2 starts
    with: lines 71, 72, 76 and 77 add a column each, line 81 drops one. *)
Definition colunas_finais (cols : list string) : list string :=
  filter (fun c => c <> ORCAMENTO_REAL)
    (com_coluna SALDO
       (com_coluna TOTAL_ORCADO
          (com_coluna TOTAL_ACUMULADO
             (com_coluna ORCAMENTO_REAL cols)))).

(** The names the function uses for its own columns. *)
Definition nomes_reservados : list string :=
  [coluna_gasto_temp; ORCAMENTO_REAL; TOTAL_ACUMULADO; TOTAL_ORCADO; SALDO].

(** A budget that uses the two working names for columns of its own. *)
Definition orcamento_nomes_reservados : DataFrame :=
  {| columns := [WBS_ELEMENT; FISCAL_YEAR; "Period 2"; TOTAL;
                 coluna_gasto_temp; ORCAMENTO_REAL];
     rows :=
       [ linha [(WBS_ELEMENT, txt_P1); (FISCAL_YEAR, Num (zq 2026));
                ("Period 2", Num (zq 7)); (TOTAL, Num (zq 100));
                (coluna_gasto_temp, Txt "a"); (ORCAMENTO_REAL, Txt "b")] ] |}.

Definition tabela_nomes_reservados : DataFrame :=
  tabela_de (processar_dados_streamlit orcamento_nomes_reservados
               gastos_exemplo 2026 2 3).

(** A budget with a row that has no project code. *)
Definition orcamento_sem_projeto : DataFrame :=
  {| columns := [WBS_ELEMENT; FISCAL_YEAR; "Period 1"; TOTAL];
     rows :=
       [ linha [(WBS_ELEMENT, txt_P1); (FISCAL_YEAR, Num (zq 2026));
                ("Period 1", Num (zq 5)); (TOTAL, Num (zq 100))];
         linha [(WBS_ELEMENT, NA); (FISCAL_YEAR, Num (zq 2026));
                ("Period 1", Num (zq 6)); (TOTAL, Num (zq 200))] ] |}.

Definition tabela_sem_projeto : DataFrame :=
  tabela_de (processar_dados_streamlit orcamento_sem_projeto gastos_exemplo
               2026 1 3).

(** The four columns line 47 needs, in the order it asks for them. *)
Definition colunas_de_gastos : list string :=
  [FISCAL_YEAR; WBS_ELEMENT; PERIOD; VALUE].

(** The first name of [cs] that is not a column of [df]. *)
Definition primeira_ausente (cs : list string) (df : DataFrame)
  : option string :=
  head (filter (fun c => c ∉ columns df) cs).

(** An expenditure table that lacks the period column. *)
Definition gastos_sem_periodo : DataFrame :=
  {| columns := [FISCAL_YEAR; WBS_ELEMENT; VALUE];
     rows :=
       [ linha [(FISCAL_YEAR, Num (zq 2026)); (WBS_ELEMENT, txt_P1);
                (VALUE, Num (zq 50))] ] |}.

(** A budget that lacks the fiscal year column. *)
Definition orcamento_sem_coluna_ano : DataFrame :=
  {| columns := [WBS_ELEMENT; "Period 1"; TOTAL];
     rows :=
       [ linha [(WBS_ELEMENT, txt_P1); ("Period 1", Num (zq 5));
                (TOTAL, Num (zq 100))] ] |}.

(** The rows of the project [w] in a table. *)
Definition linhas_do_projeto (df : DataFrame) (w : cell)
  : list (gmap string cell) :=
  filter (fun r => get r WBS_ELEMENT = w) (rows df).

(** The budgeted amounts [Total] of the rows of the project [w]. *)
Definition totais_do_projeto (df : DataFrame) (w : cell) : list cell :=
  fmap (fun r => get r TOTAL) (linhas_do_projeto df w).

(** For each row of the project [w], the sum of its period columns. *)
Definition realizado_do_projeto (df : DataFrame) (w : cell)
  : res (list cell) :=
  mapM (orcamento_real_por_linha (colunas_periodo df)) (linhas_do_projeto df w).



(** The expenditure rows of the year [ano] whose period is in the range:
    the only ones the loop of step 1 looks up. *)
Definition gasto_relevante (ano p_i p_f : Z) (e : gmap string cell) : Prop :=
  eq_int (get e FISCAL_YEAR) ano = true /\
  Exists (fun p => eq_int (get e PERIOD) p = true) (periodos p_i p_f).

Global Instance gasto_relevante_dec ano p_i p_f e :
  Decision (gasto_relevante ano p_i p_f e).
Proof. unfold gasto_relevante. apply _. Defined.

Definition gastos_relevantes (ano p_i p_f : Z) (df_gastos : DataFrame)
  : DataFrame :=
  {| columns := columns df_gastos;
     rows := filter (gasto_relevante ano p_i p_f) (rows df_gastos) |}.

(** Expenditures of several years and periods. *)
Definition gastos_variados : DataFrame :=
  {| columns := [FISCAL_YEAR; WBS_ELEMENT; PERIOD; VALUE];
     rows :=
       [ linha [(FISCAL_YEAR, Num (zq 2026)); (WBS_ELEMENT, txt_P1);
                (PERIOD, Num (zq 1)); (VALUE, Num (Q2Qc (5 # 2)))];
         linha [(FISCAL_YEAR, Num (zq 2025)); (WBS_ELEMENT, txt_P1);
                (PERIOD, Num (zq 1)); (VALUE, Num (zq 40))];
         linha [(FISCAL_YEAR, Num (zq 2026)); (WBS_ELEMENT, txt_P1);
                (PERIOD, Num (zq 7)); (VALUE, Num (zq 60))];
         linha [(FISCAL_YEAR, Num (zq 2026)); (WBS_ELEMENT, txt_P1);
                (PERIOD, Num (zq 2)); (VALUE, Num (zq 11))] ] |}.

Definition tabela_variados : DataFrame :=
  tabela_de (processar_dados_streamlit orcamento_ex gastos_variados 2026 1 3).

(** The table of the scenario of section 8, given back to the function. *)
Definition tabela_ex_outra_vez : Outcome :=
  processar_dados_streamlit tabela_ex gastos_exemplo 2026 1 3.

(** The scenario updated for period 1 only. *)
Definition tabela_periodo_1 : DataFrame :=
  tabela_de (processar_dados_streamlit orcamento_ex gastos_variados 2026 1 1).

(** The cells step 2 reads in a row of the table [df] are numeric. *)
Definition linha_legivel (df : DataFrame) (r : gmap string cell) : Prop :=
  numerica (get r FISCAL_YEAR) = true /\
  numerica (get r TOTAL) = true /\
  Forall (fun c => numerica (get r c) = true) (colunas_periodo df).

(** A budget without the column of the project codes. *)
Definition orcamento_sem_coluna_projeto : DataFrame :=
  {| columns := [FISCAL_YEAR; "Period 1"; TOTAL];
     rows :=
       [ linha [(FISCAL_YEAR, Num (zq 2026)); ("Period 1", Num (zq 5));
                (TOTAL, Num (zq 100))] ] |}.
(** * Properties *)

(** ** The failure monad *)

Lemma bind_inr {A B} (m : res A) (k : A -> res B) b :
  bind m k = inr b -> exists a, m = inr a /\ k a = inr b.
Proof. destruct m as [e|a]; simpl; [discriminate | eauto]. Qed.

Lemma mapM_inr {A B} (f : A -> res B) l l' :
  mapM f l = inr l' -> Forall2 (fun a b => f a = inr b) l l'.
Proof.
  revert l'. induction l as [|a l IH]; simpl; intros l' H.
  - injection H as <-. constructor.
  - apply bind_inr in H as (b & Hb & H).
    apply bind_inr in H as (bs & Hbs & H).
    injection H as <-. constructor; auto.
Qed.

Lemma mapM_total {A B} (f : A -> res B) l :
  (forall a, a ∈ l -> exists b, f a = inr b) ->
  exists l', mapM f l = inr l'.
Proof.
  induction l as [|a l IH]; simpl; intros H; [eauto|].
  destruct (H a) as [b Hb]; [left|].
  destruct IH as [bs Hbs]; [intros; apply H; by right|].
  rewrite Hb, Hbs. simpl. eauto.
Qed.

Lemma has_column_true df c : has_column df c = true <-> c ∈ columns df.
Proof. unfold has_column. apply bool_decide_eq_true. Qed.

Lemma has_column_false df c : has_column df c = false <-> c ∉ columns df.
Proof. unfold has_column. apply bool_decide_eq_false. Qed.

(** ** Sorting the period columns *)

Lemma insert_sorted_perm x l : insert_sorted x l ≡ₚ x :: l.
Proof.
  induction l as [|y l IH]; simpl; [done|].
  destruct (String.leb x y); [done|].
  rewrite IH. apply Permutation_swap.
Qed.

Lemma sorted_perm l : sorted l ≡ₚ l.
Proof.
  induction l as [|x l IH]; simpl; [done|].
  by rewrite insert_sorted_perm, IH.
Qed.

Lemma insert_sorted_hdrel a x l :
  leb_str a x -> HdRel leb_str a l ->
  HdRel leb_str a (insert_sorted x l).
Proof.
  intros Hax Hl. destruct l as [|y l]; simpl.
  - by constructor.
  - inversion Hl; subst. destruct (String.leb x y); by constructor.
Qed.

Lemma insert_sorted_sorted x l :
  Sorted leb_str l -> Sorted leb_str (insert_sorted x l).
Proof.
  induction l as [|y l IH]; simpl; intros Hs.
  - repeat constructor.
  - inversion Hs as [|? ? Hl Hhd]; subst.
    destruct (String.leb x y) eqn:Hxy.
    + constructor; [done|]. by constructor.
    + constructor; [auto|].
      apply insert_sorted_hdrel; [|done].
      destruct (String.leb_total x y) as [H|H]; [congruence | done].
Qed.

Lemma sorted_sorted l : Sorted leb_str (sorted l).
Proof.
  induction l as [|x l IH]; simpl; [constructor|].
  by apply insert_sorted_sorted.
Qed.

Lemma elem_of_colunas_periodo df c :
  c ∈ colunas_periodo df <-> c ∈ columns df /\ re_match_period c = true.
Proof.
  unfold colunas_periodo. rewrite sorted_perm, list_elem_of_filter. tauto.
Qed.

(** ** The scenario of section 8 *)

Lemma cenario_total_acumulado a1 a2 a3 b1 b2 b3 :
  celula (cenario a1 a2 a3 b1 b2 b3) 1 TOTAL_ACUMULADO
  = Some (Num ((a1 + (a2 + (a3 + zq 0)))
               + ((zq 75 + (zq 0 + (zq 0 + zq 0))) + zq 0))%Qc).
Proof. reflexivity. Qed.

Lemma cenario_saldo a1 a2 a3 b1 b2 b3 :
  celula (cenario a1 a2 a3 b1 b2 b3) 1 SALDO
  = Some (Num (zq 600 - ((a1 + (a2 + (a3 + zq 0)))
                         + ((zq 75 + (zq 0 + (zq 0 + zq 0))) + zq 0)))%Qc).
Proof. reflexivity. Qed.

Lemma zq_0 : zq 0 = Q2Qc 0.
Proof. reflexivity. Qed.

(** ** Column names *)

Lemma append_inj_r (s a b : string) : s ++ a = s ++ b -> a = b.
Proof. induction s as [|x s IH]; simpl; [done|]. intros [= H]. auto. Qed.

Lemma target_col_inj p q : target_col p = target_col q -> p = q.
Proof.
  unfold target_col. intros H. apply append_inj_r in H.
  assert (Hnn : forall z, Z.to_int z <> Decimal.Pos Decimal.Nil /\
                          Z.to_int z <> Decimal.Neg Decimal.Nil).
  { intros [|z|z]; simpl; split; try discriminate; intros [= Hz];
      by apply DecimalPos.Unsigned.to_uint_nonnil in Hz. }
  apply (f_equal NilZero.int_of_string) in H.
  rewrite !NilZero.isi in H by apply Hnn.
  injection H as H.
  by rewrite <- (DecimalZ.of_to p), <- (DecimalZ.of_to q), H.
Qed.

Lemma target_col_prefix p : String.prefix "Period " (target_col p) = true.
Proof. unfold target_col. by destruct (NilZero.string_of_int _). Qed.

(** A name starting with [Period ] is none of the fixed names. *)
Ltac outro_nome :=
  match goal with
  | H : String.prefix "Period " ?c = true |- ?c <> _ =>
      let E := fresh in intros E; rewrite E in H; vm_compute in H; discriminate H
  | H : String.prefix "Period " ?c = true |- _ <> ?c =>
      let E := fresh in intros E; rewrite <- E in H; vm_compute in H; discriminate H
  | |- target_col ?p <> _ =>
      let E := fresh in let P := fresh in intros E;
      pose proof (target_col_prefix p) as P; rewrite E in P;
      vm_compute in P; discriminate P
  | |- _ <> target_col ?p =>
      let E := fresh in let P := fresh in intros E;
      pose proof (target_col_prefix p) as P; rewrite <- E in P;
      vm_compute in P; discriminate P
  end.

(** ** One iteration of the loop, on one row *)

Lemma get_insert_ne (r : gmap string cell) c c' v :
  c <> c' -> get (<[c := v]> r) c' = get r c'.
Proof. intros. unfold get. by rewrite lookup_insert_ne. Qed.

Lemma get_insert_eq (r : gmap string cell) c v : get (<[c := v]> r) c = v.
Proof. unfold get. by rewrite lookup_insert_eq. Qed.

Lemma get_lookup (r r' : gmap string cell) c :
  r' !! c = r !! c -> get r' c = get r c.
Proof. unfold get. by intros ->. Qed.

Lemma lookup_linha_periodo ga ano p r c :
  c <> coluna_gasto_temp ->
  linha_periodo ga ano p r !! c =
    if decide (c = target_col p /\ eq_int (get r FISCAL_YEAR) ano = true)
    then Some (valor_periodo ga ano p r)
    else r !! c.
Proof.
  intros Hc. unfold linha_periodo, atualizar_linha, valor_periodo.
  rewrite lookup_delete_ne by done.
  rewrite get_insert_ne by done. rewrite get_insert_eq.
  destruct (eq_int (get r FISCAL_YEAR) ano).
  - destruct (decide (c = target_col p)) as [->|Hne].
    + rewrite lookup_insert_eq. by rewrite decide_True.
    + rewrite !lookup_insert_ne by done. rewrite decide_False; [done|tauto].
  - rewrite lookup_insert_ne by done. rewrite decide_False; [done|].
    intros [_ ?]; discriminate.
Qed.

Lemma lookup_linha_periodo_ne ga ano p r c :
  c <> coluna_gasto_temp -> c <> target_col p ->
  linha_periodo ga ano p r !! c = r !! c.
Proof.
  intros. rewrite lookup_linha_periodo by done.
  rewrite decide_False; [done|tauto].
Qed.

Lemma lookup_linha_periodo_outro_ano ga ano p r c :
  c <> coluna_gasto_temp -> eq_int (get r FISCAL_YEAR) ano = false ->
  linha_periodo ga ano p r !! c = r !! c.
Proof.
  intros ? Hano. rewrite lookup_linha_periodo by done.
  rewrite decide_False; [done|]. rewrite Hano. intros [_ ?]; discriminate.
Qed.

Lemma junta_chaves gp r r' :
  get r' WBS_ELEMENT = get r WBS_ELEMENT ->
  get r' FISCAL_YEAR = get r FISCAL_YEAR ->
  junta gp r' = junta gp r.
Proof.
  intros Hw Hf. unfold junta.
  rewrite (list_filter_iff (casa r') (casa r)); [done|].
  intros g. unfold casa. by rewrite Hw, Hf.
Qed.

(** ** The whole loop, on one row *)

Lemma lookup_linha_etapa1_ne ga ano cols ps r c :
  c <> coluna_gasto_temp -> (forall p, p ∈ ps -> c <> target_col p) ->
  linha_etapa1 ga ano cols ps r !! c = r !! c.
Proof.
  intros Hc. revert r. induction ps as [|q ps IH]; simpl; intros r Hps; [done|].
  rewrite IH by (intros; apply Hps; by right).
  case_bool_decide; [|done].
  apply lookup_linha_periodo_ne; [done|]. apply Hps. by left.
Qed.

Lemma lookup_linha_etapa1_outro_ano ga ano cols ps r c :
  c <> coluna_gasto_temp -> eq_int (get r FISCAL_YEAR) ano = false ->
  linha_etapa1 ga ano cols ps r !! c = r !! c.
Proof.
  intros Hc. revert r. induction ps as [|q ps IH]; simpl; intros r Hano; [done|].
  case_bool_decide; [|by apply IH].
  rewrite IH.
  - by apply lookup_linha_periodo_outro_ano.
  - erewrite get_lookup; [done|].
    apply lookup_linha_periodo_outro_ano; done.
Qed.

Lemma get_linha_periodo_chave ga ano p r c :
  c = WBS_ELEMENT \/ c = FISCAL_YEAR ->
  get (linha_periodo ga ano p r) c = get r c.
Proof.
  intros Hc. apply get_lookup. apply lookup_linha_periodo_ne.
  - destruct Hc as [-> | ->]; discriminate.
  - destruct Hc as [-> | ->]; outro_nome.
Qed.

Lemma lookup_linha_etapa1_periodo ga ano cols ps r p :
  eq_int (get r FISCAL_YEAR) ano = true ->
  p ∈ ps -> target_col p ∈ cols ->
  linha_etapa1 ga ano cols ps r !! target_col p
  = Some (valor_periodo ga ano p r).
Proof.
  intros Hano Hp Hcol. revert r Hano Hp.
  induction ps as [|q ps IH]; intros r Hano Hp; [by apply elem_of_nil in Hp|].
  simpl. destruct (decide (p ∈ ps)) as [Hin|Hnin].
  - case_bool_decide.
    + rewrite IH; [|by rewrite get_linha_periodo_chave by auto|done].
      unfold valor_periodo. f_equal. f_equal.
      apply junta_chaves; apply get_linha_periodo_chave; auto.
    + by apply IH.
  - apply elem_of_cons in Hp as [->|?]; [|done].
    rewrite bool_decide_eq_true_2 by done.
    rewrite lookup_linha_etapa1_ne.
    + rewrite lookup_linha_periodo by outro_nome.
      rewrite decide_True; [done|]. by rewrite Hano.
    + outro_nome.
    + intros p' Hp' E. apply target_col_inj in E. by subst.
Qed.

(** ** The join of line 58 keeps every row once *)

Lemma eq_int_true c n : eq_int c n = true <-> c = Num (zq n).
Proof.
  destruct c; simpl; try (split; [discriminate | intros [=]]).
  rewrite bool_decide_eq_true. split; [by intros -> | by intros [= ->]].
Qed.

Lemma uma_chave {A B} (f : A -> B) (l : list A) (k : B) :
  NoDup (f <$> l) -> (forall x, x ∈ l -> f x = k) -> (length l <= 1)%nat.
Proof.
  destruct l as [|x [|y l]]; simpl; intros Hnd Hk; [lia | lia |].
  exfalso. apply NoDup_cons in Hnd as [Hx _]. apply Hx.
  rewrite (Hk x), <- (Hk y); [left | right; left | left].
Qed.

Lemma flat_map_singleton {A B} (f : A -> list B) (g : A -> B) (l : list A) :
  (forall a, f a = [g a]) -> flat_map f l = g <$> l.
Proof.
  intros H. induction l as [|a l IH]; simpl; [done|].
  by rewrite H, IH.
Qed.

Lemma elem_of_sem_temp (cols : list string) c :
  c <> coluna_gasto_temp ->
  c ∈ filter (fun c => c <> coluna_gasto_temp) cols <-> c ∈ cols.
Proof. rewrite list_elem_of_filter. tauto. Qed.

(** The groups of line 47 have pairwise distinct keys
    ([gastos_agrupados_NoDup]); the loop is studied under that assumption. *)
Section chaves_distintas.
Context (ga : list (chave * Qc)) (ano : Z).
Hypothesis Hnd : NoDup (fst <$> ga).

Lemma casa_unica p r :
  (length (filter (casa r) (gastos_do_periodo ga ano p)) <= 1)%nat.
Proof.
  apply (uma_chave fst _ (get r FISCAL_YEAR, get r WBS_ELEMENT, Num (zq p))).
  - apply (sublist_NoDup _ (fst <$> ga)); [exact Hnd|].
    apply fmap_sublist. etrans; [apply sublist_filter|].
    unfold gastos_do_periodo. apply sublist_filter.
  - intros [[[f w] q] s] Hg.
    apply list_elem_of_filter in Hg as [[Hw Hf] Hg]. simpl in Hw, Hf.
    unfold gastos_do_periodo in Hg.
    apply list_elem_of_filter in Hg as [Hq _]. simpl in Hq.
    apply andb_true_iff in Hq as [Hq _]. apply eq_int_true in Hq.
    simpl. by rewrite Hw, Hf, Hq.
Qed.

Lemma merge_left_rows p df m :
  merge_left df (gastos_do_periodo ga ano p) = inr m ->
  rows m = (fun r => <[coluna_gasto_temp :=
                         junta (gastos_do_periodo ga ano p) r]> r) <$> rows df
  /\ columns m = (columns df ++ [coluna_gasto_temp])%list
  /\ WBS_ELEMENT ∈ columns df /\ FISCAL_YEAR ∈ columns df.
Proof.
  unfold merge_left.
  destruct (has_column df WBS_ELEMENT) eqn:Hw; simpl; [|discriminate].
  destruct (has_column df FISCAL_YEAR) eqn:Hf; simpl; [|discriminate].
  intros [= <-]. simpl. apply has_column_true in Hw, Hf.
  split; [|done].
  apply flat_map_singleton. intros r. unfold junta.
  pose proof (casa_unica p r) as Hlen.
  destruct (filter (casa r) (gastos_do_periodo ga ano p)) as [|g [|g' l]];
    simpl in *; [done | done | lia].
Qed.

(** ** One iteration of the loop, on the table *)

Lemma atualizar_periodo_inr df p df' :
  atualizar_periodo ga ano df p = inr df' ->
  ((target_col p ∉ columns df) /\ df' = df) \/
  (target_col p ∈ columns df /\
   rows df' = linha_periodo ga ano p <$> rows df /\
   columns df' = filter (fun c => c <> coluna_gasto_temp) (columns df) /\
   FISCAL_YEAR ∈ columns df).
Proof.
  unfold atualizar_periodo.
  destruct (has_column df (target_col p)) eqn:Ht; simpl.
  2:{ intros [= <-]. left. by apply has_column_false in Ht. }
  apply has_column_true in Ht. intros H. right. split; [done|].
  apply bind_inr in H as (df1 & H1 & H).
  assert (rows df1 = (fun r => <[coluna_gasto_temp :=
            junta (gastos_do_periodo ga ano p) r]> r) <$> rows df
          /\ filter (fun c => c <> coluna_gasto_temp) (columns df1)
             = filter (fun c => c <> coluna_gasto_temp) (columns df)
          /\ (FISCAL_YEAR ∈ columns df1 -> FISCAL_YEAR ∈ columns df))
    as (Hrows & Hcols & Hfy).
  { destruct (gastos_do_periodo ga ano p) as [|g gp] eqn:Hgp.
    - injection H1 as <-. simpl. split; [done|].
      destruct (has_column df coluna_gasto_temp); [done|].
      rewrite filter_app, filter_cons_False, filter_nil, app_nil_r by naive_solver.
      split; [done|]. rewrite elem_of_app, list_elem_of_singleton.
      intros [?|?]; [done|discriminate].
    - apply bind_inr in H1 as (m & Hm & H1). rewrite <- Hgp in Hm.
      apply merge_left_rows in Hm as (Hr & Hc & _ & Hf).
      destruct (has_column df coluna_gasto_temp); [discriminate|].
      injection H1 as <-. rewrite <- Hgp. split; [done|].
      rewrite Hc, filter_app, filter_cons_False, filter_nil, app_nil_r
        by naive_solver.
      done. }
  destruct (has_column df1 FISCAL_YEAR) eqn:Hf; simpl in H; [|discriminate].
  apply has_column_true in Hf. injection H as <-. simpl.
  rewrite Hrows, <- !list_fmap_compose. auto.
Qed.

(** ** The whole loop, on the table *)

Lemma linha_etapa1_cols cols cols' ps r :
  (forall p, target_col p ∈ cols <-> target_col p ∈ cols') ->
  linha_etapa1 ga ano cols ps r = linha_etapa1 ga ano cols' ps r.
Proof.
  intros H. revert r. induction ps as [|p ps IH]; simpl; intros r; [done|].
  rewrite IH. by rewrite (bool_decide_ext _ _ (H p)).
Qed.

Lemma etapa1_inr ps df df' :
  etapa1 ga ano ps df = inr df' ->
  rows df' = linha_etapa1 ga ano (columns df) ps <$> rows df /\
  (forall c, c <> coluna_gasto_temp -> c ∈ columns df' <-> c ∈ columns df).
Proof.
  revert df. induction ps as [|p ps IH]; simpl; intros df H.
  - injection H as <-. split; [by rewrite list_fmap_id | done].
  - apply bind_inr in H as (df1 & H1 & H).
    apply IH in H as [Hr Hc].
    apply atualizar_periodo_inr in H1 as [[Hp ->]|(Hp & Hr1 & Hc1 & _)].
    + split; [|done]. rewrite Hr. apply list_fmap_ext. intros _ r _.
      by rewrite bool_decide_eq_false_2.
    + split.
      * rewrite Hr, Hr1, <- list_fmap_compose. apply list_fmap_ext.
        intros _ r _. simpl. rewrite bool_decide_eq_true_2 by done.
        apply linha_etapa1_cols. intros q. rewrite Hc1.
        apply elem_of_sem_temp. outro_nome.
      * intros c Hne. rewrite Hc by done. rewrite Hc1.
        by apply elem_of_sem_temp.
Qed.

End chaves_distintas.

(** ** Step 2, row by row *)

Lemma Forall2_comp {A B C} (P : A -> B -> Prop) (Q : B -> C -> Prop) l k m :
  Forall2 P l k -> Forall2 Q k m ->
  Forall2 (fun x z => exists y, P x y /\ Q y z) l m.
Proof.
  intros H. revert m. induction H; intros m Hm; inversion Hm; subst;
    constructor; eauto.
Qed.

Lemma assign_res_inr c f df df' :
  assign_res c f df = inr df' ->
  Forall2 (fun r r' => exists v, f r = inr v /\ r' = <[c := v]> r)
          (rows df) (rows df') /\
  columns df' = if has_column df c then columns df
                else (columns df ++ [c])%list.
Proof.
  unfold assign_res. intros H. apply bind_inr in H as (rs & Hrs & H).
  injection H as <-. simpl. split; [|done].
  apply mapM_inr in Hrs. eapply Forall2_impl; [exact Hrs|].
  simpl. intros r r' Hr. apply bind_inr in Hr as (v & Hv & Hr).
  injection Hr as <-. eauto.
Qed.

Lemma mascarar_linhas_inr df df' :
  mascarar_linhas df = inr df' ->
  Forall2 (fun r r' => exists m,
             transform_max df WBS_ELEMENT FISCAL_YEAR r = inr m /\
             r' = mascarar m r)
          (rows df) (rows df') /\
  columns df' = columns df.
Proof.
  unfold mascarar_linhas. intros H. apply bind_inr in H as (rs & Hrs & H).
  injection H as <-. simpl. split; [|done].
  apply mapM_inr in Hrs. eapply Forall2_impl; [exact Hrs|].
  simpl. intros r r' Hr. apply bind_inr in Hr as (v & Hv & Hr).
  injection Hr as <-. eauto.
Qed.

Lemma valores_do_grupo (key val : string) (k : cell)
    (l l' : list (gmap string cell)) :
  Forall2 (fun a b => get b key = get a key /\ get b val = get a val) l l' ->
  (fun r => get r val) <$> filter (fun r => get r key = k) l'
  = (fun r => get r val) <$> filter (fun r => get r key = k) l.
Proof.
  induction 1 as [|a b l l' [Hk Hv] _ IH]; [done|].
  rewrite !filter_cons, Hk.
  destruct (decide (get a key = k)); [|done].
  by rewrite !fmap_cons, Hv, IH.
Qed.

Lemma lookup_mascarar_ne m r c :
  c <> TOTAL_ORCADO -> c <> TOTAL_ACUMULADO -> c <> SALDO ->
  mascarar m r !! c = r !! c.
Proof.
  intros. unfold mascarar. destruct (lt_cells _ _); [|done].
  by rewrite !lookup_insert_ne.
Qed.

Lemma lookup_linha_etapa2_ne v ta to m r c :
  c ∉ colunas_etapa2 -> linha_etapa2 v ta to m r !! c = r !! c.
Proof.
  unfold colunas_etapa2. rewrite !not_elem_of_cons.
  intros (? & ? & ? & ? & _). unfold linha_etapa2.
  rewrite lookup_delete_ne by done.
  rewrite lookup_mascarar_ne by done.
  by rewrite !lookup_insert_ne.
Qed.

Lemma get_linha_etapa2_ne v ta to m r c :
  c ∉ colunas_etapa2 -> get (linha_etapa2 v ta to m r) c = get r c.
Proof. intros. apply get_lookup. by apply lookup_linha_etapa2_ne. Qed.

Ltac nomes := let E := fresh in intros E; vm_compute in E; discriminate E.

Lemma chaves_fora_da_etapa2 :
  (WBS_ELEMENT ∉ colunas_etapa2) /\ (FISCAL_YEAR ∉ colunas_etapa2).
Proof.
  unfold colunas_etapa2. rewrite !not_elem_of_cons.
  repeat split; try nomes; apply not_elem_of_nil.
Qed.

(** The derived fields of a row of step 2: all three missing when its year
    is below the latest year of its project, and otherwise the two totals
    and their difference. *)
Lemma derivados_linha_etapa2 v ta to m r :
  let r' := linha_etapa2 v ta to m r in
  if lt_cells (get r FISCAL_YEAR) m
  then r' !! TOTAL_ORCADO = Some NA /\ r' !! TOTAL_ACUMULADO = Some NA /\
       r' !! SALDO = Some NA
  else r' !! TOTAL_ORCADO = Some to /\ r' !! TOTAL_ACUMULADO = Some ta /\
       r' !! SALDO = Some (sub_cells to ta).
Proof.
  simpl. unfold linha_etapa2, mascarar.
  rewrite !get_insert_ne by nomes.
  destruct (lt_cells (get r FISCAL_YEAR) m).
  - repeat split; rewrite lookup_delete_ne by nomes.
    + rewrite lookup_insert_ne by nomes. rewrite lookup_insert_ne by nomes.
      apply lookup_insert_eq.
    + rewrite lookup_insert_ne by nomes. apply lookup_insert_eq.
    + apply lookup_insert_eq.
  - repeat split; rewrite lookup_delete_ne by nomes.
    + rewrite lookup_insert_ne by nomes. apply lookup_insert_eq.
    + rewrite lookup_insert_ne by nomes. rewrite lookup_insert_ne by nomes.
      apply lookup_insert_eq.
    + apply lookup_insert_eq.
Qed.

Lemma transform_sum_inr df key val r v :
  transform_sum df key val r = inr v ->
  key ∈ columns df /\
  if isna (get r key) then v = NA else exists q, v = Num q.
Proof.
  unfold transform_sum.
  destruct (has_column df key) eqn:Hk; simpl; [|discriminate].
  apply has_column_true in Hk. split; [done|].
  destruct (isna (get r key)); [by injection H as <-|].
  apply bind_inr in H as (s & _ & H). injection H as <-. eauto.
Qed.

Lemma transform_max_inr df key val r m :
  transform_max df key val r = inr m ->
  if isna (get r key) then m = NA
  else max_cells ((fun r' => get r' val) <$> grupo df key r) = inr m.
Proof.
  unfold transform_max.
  destruct (has_column df key); simpl; [|discriminate].
  destruct (has_column df val); simpl; [|discriminate].
  destruct (isna (get r key)); [by intros [= <-] | done].
Qed.

Lemma etapa2_Returned df t :
  etapa2 df = Returned t ->
  TOTAL ∈ columns df /\ colunas_periodo df <> [] /\
  Forall2 (linha_retornada t) (rows df) (rows t).
Proof.
  unfold etapa2. destruct (colunas_periodo df) as [|c0 cs] eqn:Hcols;
    [discriminate|].
  set (cols := c0 :: cs). intros H.
  match type of H with outcome_of ?x = _ => destruct x as [e|o] eqn:Hin end;
    simpl in H; [discriminate|]. subst o.
  apply bind_inr in Hin as (df1 & H1 & Hin).
  apply bind_inr in Hin as (df2 & H2 & Hin).
  destruct (has_column df2 TOTAL) eqn:Htot; simpl in Hin; [|discriminate].
  apply bind_inr in Hin as (df3 & H3 & Hin).
  apply bind_inr in Hin as (df5 & H5 & Hin).
  injection Hin as <-.
  apply assign_res_inr in H1 as [F1 C1].
  apply assign_res_inr in H2 as [F2 C2].
  apply assign_res_inr in H3 as [F3 C3].
  apply mascarar_linhas_inr in H5 as [F5 _]. simpl in F5.
  split; [|split; [done|]].
  { apply has_column_true in Htot. rewrite C2, C1 in Htot.
    destruct (has_column df1 TOTAL_ACUMULADO), (has_column df ORCAMENTO_REAL);
      rewrite ?elem_of_app, ?list_elem_of_singleton in Htot;
      destruct_or?; try done; discriminate. }
  (* the keys of the returned rows are those of the rows before the masking *)
  assert (Forall2 (fun a b => get b WBS_ELEMENT = get a WBS_ELEMENT /\
                              get b FISCAL_YEAR = get a FISCAL_YEAR)
            (rows (assign SALDO (fun r => sub_cells (get r TOTAL_ORCADO)
                                            (get r TOTAL_ACUMULADO)) df3))
            (rows (drop ORCAMENTO_REAL df5))) as Hk.
  { simpl. apply Forall2_fmap_r. eapply Forall2_impl; [exact F5|]. simpl.
    intros r4 r5 (m & _ & ->). unfold get.
    rewrite !lookup_delete_ne by nomes.
    rewrite !lookup_mascarar_ne by nomes. by split. }
  (* the rows before the masking *)
  pose proof (Forall2_comp _ _ _ _ _ (Forall2_comp _ _ _ _ _ F1 F2) F3) as F03.
  clear F1 F2 F3.
  apply Forall2_fmap_l in F5.
  pose proof (Forall2_comp _ _ _ _ _ F03 F5) as F. clear F03 F5.
  simpl. apply Forall2_fmap_r.
  eapply Forall2_impl; [exact F|]. simpl.
  intros r r5 (r3 & (r2 & (r1 & (v & _ & ->) & (ta & Hta & ->))
                     & (to & Hto & ->)) & (m & Hm & ->)).
  rewrite get_insert_eq in Hm. rewrite get_insert_ne in Hm by nomes.
  rewrite get_insert_eq in Hm. rewrite get_insert_eq.
  rewrite get_insert_ne by nomes. rewrite get_insert_eq.
  exists v, ta, to, m. split; [done|].
  apply transform_sum_inr in Hta as [_ Hta].
  apply transform_sum_inr in Hto as [_ Hto].
  apply transform_max_inr in Hm.
  rewrite !get_insert_ne in Hta by nomes.
  rewrite !get_insert_ne in Hto by nomes.
  rewrite !get_insert_ne in Hm by nomes.
  destruct (isna (get r WBS_ELEMENT)); [auto|].
  destruct Hta as [a ->], Hto as [b ->]. split; [eauto|].
  unfold grupo in Hm. rewrite !get_insert_ne in Hm by nomes.
  rewrite <- Hm. f_equal. unfold anos_do_projeto.
  apply (valores_do_grupo WBS_ELEMENT FISCAL_YEAR _ _ _ Hk).
Qed.

(** ** The latest year of a project *)

Lemma Qcmax_cases x y :
  (Qcmax x y = x /\ (y <= x)%Qc) \/ (Qcmax x y = y /\ (x <= y)%Qc).
Proof.
  unfold Qcmax. destruct (Qccompare x y) eqn:Hc.
  - left. split; [done|]. apply Qceq_alt in Hc. subst. apply Qcle_refl.
  - right. split; [done|]. apply Qclt_alt in Hc. by apply Qclt_le_weak.
  - left. split; [done|]. apply Qcgt_alt in Hc. by apply Qclt_le_weak.
Qed.

Lemma max_cells_inr l m :
  max_cells l = inr m ->
  (forall q, Num q ∈ l -> exists M, m = Num M /\ (q <= M)%Qc) /\
  (forall M, m = Num M -> Num M ∈ l).
Proof.
  revert m. induction l as [|c l IH]; simpl; intros m H.
  - injection H as <-. split; [intros q Hq; by apply elem_of_nil in Hq|].
    discriminate.
  - destruct c as [|q|s]; [| |discriminate].
    + destruct (IH m H) as [Hub Hin]. split.
      * intros q' Hq'. apply elem_of_cons in Hq' as [?|?]; [discriminate|auto].
      * intros M HM. right. auto.
    + apply bind_inr in H as (m' & Hm' & H). injection H as <-.
      destruct (IH m' Hm') as [Hub Hin]. destruct m' as [|q'|s].
      * split.
        -- intros x Hx. apply elem_of_cons in Hx as [[= ->]|Hx].
           ++ exists q. split; [done|apply Qcle_refl].
           ++ destruct (Hub x Hx) as (M & ? & _). discriminate.
        -- intros M [= <-]. by left.
      * destruct (Qcmax_cases q q') as [[-> Hle]|[-> Hle]].
        -- split.
           ++ intros x Hx. exists q. split; [done|].
              apply elem_of_cons in Hx as [[= ->]|Hx]; [apply Qcle_refl|].
              destruct (Hub x Hx) as (M & [= <-] & HxM).
              by apply Qcle_trans with q'.
           ++ intros M [= <-]. by left.
        -- split.
           ++ intros x Hx. exists q'. split; [done|].
              apply elem_of_cons in Hx as [[= ->]|Hx]; [done|].
              by destruct (Hub x Hx) as (M & [= <-] & HxM).
           ++ intros M [= <-]. right. by apply Hin.
      * split.
        -- intros x Hx. apply elem_of_cons in Hx as [[= ->]|Hx].
           ++ exists q. split; [done|apply Qcle_refl].
           ++ destruct (Hub x Hx) as (M & ? & _). discriminate.
        -- intros M [= <-]. by left.
Qed.

Lemma lt_cells_Num x y : lt_cells (Num x) (Num y) = true <-> (x < y)%Qc.
Proof.
  simpl. rewrite Qclt_alt. destruct (Qccompare x y); split; congruence.
Qed.

(** The derived fields of a returned row that has a project code and a
    fiscal year. *)
Lemma derivados_retornados t r r' y :
  linha_retornada t r r' ->
  get r' WBS_ELEMENT <> NA -> get r' FISCAL_YEAR = Num y ->
  r' ∈ rows t ->
  exists M, ano_maximo t (get r' WBS_ELEMENT) M /\
    (y = M -> exists a b,
        r' !! TOTAL_ORCADO = Some (Num a) /\
        r' !! TOTAL_ACUMULADO = Some (Num b) /\
        r' !! SALDO = Some (Num (a - b)%Qc)) /\
    (y <> M ->
        r' !! TOTAL_ORCADO = Some NA /\
        r' !! TOTAL_ACUMULADO = Some NA /\
        r' !! SALDO = Some NA).
Proof.
  intros (v & ta & to & m & -> & H) Hw Hy Hin.
  destruct chaves_fora_da_etapa2 as [Hkw Hkf].
  rewrite get_linha_etapa2_ne in Hw, Hy by done.
  rewrite get_linha_etapa2_ne by done.
  destruct (isna (get r WBS_ELEMENT)) eqn:Hna.
  { destruct (get r WBS_ELEMENT); done. }
  destruct H as [(a & b & -> & ->) Hm].
  apply max_cells_inr in Hm as [Hub Hmax].
  assert (Num y ∈ anos_do_projeto t (get r WBS_ELEMENT)) as Hyin.
  { unfold anos_do_projeto. apply list_elem_of_fmap.
    eexists. split; [|apply list_elem_of_filter; split; [|exact Hin]].
    - by rewrite get_linha_etapa2_ne, Hy.
    - by rewrite get_linha_etapa2_ne. }
  destruct (Hub y Hyin) as (M & -> & HyM).
  exists M. split; [split; [by apply Hmax|]|].
  { intros y' Hy'. by destruct (Hub y' Hy') as (M' & [= <-] & ?). }
  pose proof (derivados_linha_etapa2 v (Num a) (Num b) (Num M) r) as Hd.
  simpl in Hd. rewrite Hy in Hd.
  destruct (lt_cells (Num y) (Num M)) eqn:Hlt.
  - apply lt_cells_Num in Hlt. split; [|done].
    intros ->. by apply Qclt_not_eq in Hlt.
  - split; [intros _; eauto|].
    intros Hne. exfalso.
    assert (¬ (y < M)%Qc) as Hnlt.
    { intros Hlt'. apply lt_cells_Num in Hlt'. congruence. }
    apply Qcnot_lt_le in Hnlt. apply Hne. by apply Qcle_antisym.
Qed.

(** ** The function as a whole *)

Lemma gastos_agrupados_inr df ga :
  gastos_agrupados df = inr ga ->
  fst <$> ga = remove_dups (chave_de <$> linhas_validas df) /\
  Forall (fun g => sum_cells (valores_de df g.1) = inr g.2) ga.
Proof.
  unfold gastos_agrupados.
  repeat (destruct (has_column df _); simpl; [|discriminate]).
  intros H. apply mapM_inr in H.
  induction H as [|k g ks ga Hg _ [IH1 IH2]]; [done|].
  apply bind_inr in Hg as (s & Hs & Hg). injection Hg as <-.
  split; [by rewrite fmap_cons, IH1 | by constructor].
Qed.

Lemma gastos_agrupados_NoDup df ga :
  gastos_agrupados df = inr ga -> NoDup (fst <$> ga).
Proof.
  intros H. apply gastos_agrupados_inr in H as [-> _].
  apply NoDup_remove_dups.
Qed.

Lemma processar_inv orc gastos ano p_i p_f o :
  processar_dados_streamlit orc gastos ano p_i p_f = o ->
  (exists e, o = UnexpectedError e) \/
  exists ga df,
    gastos_agrupados (drop_unnamed gastos) = inr ga /\
    etapa1 ga ano (periodos p_i p_f) (drop_unnamed orc) = inr df /\
    etapa2 df = o.
Proof.
  unfold processar_dados_streamlit.
  destruct (gastos_agrupados (drop_unnamed gastos)) as [e|ga] eqn:Hga; simpl.
  { intros <-. left. eauto. }
  destruct (etapa1 ga ano (periodos p_i p_f) (drop_unnamed orc))
    as [e|df] eqn:Hdf; simpl.
  { intros <-. left. eauto. }
  intros <-. right. eauto.
Qed.

(** ** Stripping the unnamed columns *)

Lemma lookup_sem_unnamed (r : gmap string cell) c :
  unnamed c = false ->
  filter (fun kv : string * cell => unnamed kv.1 = false) r !! c = r !! c.
Proof.
  intros Hc. destruct (r !! c) as [v|] eqn:Hr.
  - by apply map_lookup_filter_Some_2.
  - apply map_lookup_filter_None_2. by left.
Qed.

Lemma get_sem_unnamed (r : gmap string cell) c :
  unnamed c = false ->
  get (filter (fun kv : string * cell => unnamed kv.1 = false) r) c = get r c.
Proof. intros. apply get_lookup. by apply lookup_sem_unnamed. Qed.

Lemma elem_of_columns_drop_unnamed df c :
  c ∈ columns (drop_unnamed df) <-> unnamed c = false /\ c ∈ columns df.
Proof. unfold drop_unnamed. simpl. by rewrite list_elem_of_filter. Qed.

Lemma periodo_nao_unnamed c :
  String.prefix "Period " c = true -> unnamed c = false.
Proof.
  intros H. destruct c as [|a c]; [discriminate H|].
  change (String.prefix "Period " (String a c))
    with (if ascii_dec "P" a then String.prefix "eriod " c else false) in H.
  destruct (ascii_dec "P" a) as [<-|]; [reflexivity | discriminate H].
Qed.

(** ** What step 2 leaves alone *)

Lemma etapa2_Warned df t :
  etapa2 df = Warned t -> t = df /\ colunas_periodo df = [].
Proof.
  unfold etapa2. destruct (colunas_periodo df); [by intros [= <-]|].
  intros H.
  match type of H with outcome_of ?x = _ => destruct x as [e|o] eqn:Hin end;
    simpl in H; [discriminate|]. subst o.
  apply bind_inr in Hin as (df1 & _ & Hin).
  apply bind_inr in Hin as (df2 & _ & Hin).
  destruct (has_column df2 TOTAL); simpl in Hin; [|discriminate].
  apply bind_inr in Hin as (df3 & _ & Hin).
  apply bind_inr in Hin as (df5 & _ & Hin). discriminate.
Qed.

Lemma etapa2_devolve df t :
  devolve (etapa2 df) t ->
  Forall2 (fun r r' => forall c, c ∉ colunas_etapa2 -> r' !! c = r !! c)
          (rows df) (rows t).
Proof.
  intros [H|H].
  - apply etapa2_Returned in H as (_ & _ & H).
    eapply Forall2_impl; [exact H|]. simpl.
    intros r r' (v & ta & to & m & -> & _) c Hc.
    by apply lookup_linha_etapa2_ne.
  - apply etapa2_Warned in H as [-> _].
    by apply Forall_Forall2_diag, Forall_true.
Qed.

(** ** The returned table, row by row *)

Lemma processar_devolve orc gastos ano p_i p_f t :
  devolve (processar_dados_streamlit orc gastos ano p_i p_f) t ->
  exists ga,
    gastos_agrupados (drop_unnamed gastos) = inr ga /\
    Forall2 (fun r r' => forall c,
               c ∉ colunas_etapa2 ->
               r' !! c = linha_etapa1 ga ano (columns (drop_unnamed orc))
                           (periodos p_i p_f) r !! c)
            (rows (drop_unnamed orc)) (rows t).
Proof.
  intros Hd.
  destruct (processar_inv orc gastos ano p_i p_f _ eq_refl)
    as [[e He]|(ga & df & Hga & Hdf & Ho)].
  { rewrite He in Hd. destruct Hd; discriminate. }
  rewrite <- Ho in Hd. apply etapa2_devolve in Hd.
  exists ga. split; [done|].
  apply etapa1_inr in Hdf as [Hr _]; [|by eapply gastos_agrupados_NoDup].
  rewrite Hr in Hd. by apply Forall2_fmap_l in Hd.
Qed.

Lemma periodo_fora_da_etapa2 c :
  String.prefix "Period " c = true -> c ∉ colunas_etapa2.
Proof.
  intros H. unfold colunas_etapa2. rewrite !not_elem_of_cons.
  repeat split; try outro_nome. apply not_elem_of_nil.
Qed.

Lemma elem_of_periodos p_i p_f p : p ∈ periodos p_i p_f <-> p_i <= p <= p_f.
Proof. unfold periodos. rewrite elem_of_seqZ. lia. Qed.

(** ** The grouped expenditures and the value of a period *)



Lemma isna_false c : isna c = false <-> c <> NA.
Proof. destruct c; simpl; split; congruence. Qed.




(** ** No period column: the warning *)

Lemma strip_prefix_app p s : strip_prefix p (p ++ s) = Some s.
Proof.
  induction p as [|a p IH]; simpl; [by destruct s|].
  by rewrite bool_decide_eq_true_2.
Qed.

Lemma digits_string_of_uint d :
  digits_to_end (NilEmpty.string_of_uint d) = true.
Proof. induction d; simpl; auto. Qed.

Lemma re_match_target_col p : 0 <= p -> re_match_period (target_col p) = true.
Proof.
  intros Hp. unfold re_match_period, target_col. rewrite strip_prefix_app.
  destruct p as [|q|q]; [done| |lia]. simpl.
  pose proof (DecimalPos.Unsigned.to_uint_nonnil q) as Hnn.
  destruct (Pos.to_uint q) as [|d|d|d|d|d|d|d|d|d|d]; [done|..]; simpl;
    apply digits_string_of_uint.
Qed.



(** ** Typed expenditures: the grouping succeeds *)

Lemma sum_cells_total l :
  Forall (fun c => numerica c = true) l -> exists q, sum_cells l = inr q.
Proof.
  induction 1 as [|c l Hc _ [q IH]]; simpl; [eauto|].
  destruct c; [eauto | rewrite IH; simpl; eauto | discriminate].
Qed.

Lemma gastos_agrupados_total gastos :
  gastos_tipados gastos ->
  exists ga, gastos_agrupados (drop_unnamed gastos) = inr ga.
Proof.
  intros (Hf & Hw & Hp & Hv & Hnum). unfold gastos_agrupados.
  rewrite !(proj2 (has_column_true _ _))
    by (by apply elem_of_columns_drop_unnamed). simpl.
  apply mapM_total. intros k _.
  destruct (sum_cells_total (valores_de (drop_unnamed gastos) k)) as [q Hq].
  - unfold valores_de, linhas_validas. simpl.
    apply Forall_fmap, Forall_forall. intros e He. simpl.
    apply list_elem_of_filter in He as [_ He].
    apply list_elem_of_filter in He as [_ He].
    apply list_elem_of_fmap in He as (e0 & -> & He0).
    rewrite get_sem_unnamed by done.
    rewrite Forall_forall in Hnum. by apply Hnum.
  - rewrite Hq. simpl. eauto.
Qed.

(** ** Typed budget: the loop succeeds *)

Lemma filter_todos {A} (P : A -> Prop) `{!forall x, Decision (P x)} l :
  Forall P l -> filter P l = l.
Proof.
  induction 1 as [|x l Hx _ IH]; [done|].
  by rewrite filter_cons_True, IH.
Qed.

Lemma filter_sem_temp (cols : list string) :
  coluna_gasto_temp ∉ cols ->
  filter (fun c => c <> coluna_gasto_temp) cols = cols.
Proof.
  intros H. apply filter_todos, Forall_forall. intros c Hc ->. done.
Qed.

Lemma atualizar_periodo_total ga ano df p :
  WBS_ELEMENT ∈ columns df -> FISCAL_YEAR ∈ columns df ->
  coluna_gasto_temp ∉ columns df ->
  exists df', atualizar_periodo ga ano df p = inr df'.
Proof.
  intros Hw Hf Ht. unfold atualizar_periodo.
  destruct (has_column df (target_col p)); simpl; [|eauto].
  apply has_column_false in Ht.
  destruct (gastos_do_periodo ga ano p) as [|g gp]; simpl.
  - unfold has_column at 1. simpl. rewrite Ht.
    rewrite bool_decide_eq_true_2 by (apply elem_of_app; by left).
    simpl. eauto.
  - unfold merge_left.
    rewrite !(proj2 (has_column_true _ _)) by done. simpl.
    rewrite Ht. simpl. unfold has_column at 1. simpl.
    rewrite bool_decide_eq_true_2 by (apply elem_of_app; by left).
    simpl. eauto.
Qed.

Lemma etapa1_total ga ano ps df :
  NoDup (fst <$> ga) ->
  WBS_ELEMENT ∈ columns df -> FISCAL_YEAR ∈ columns df ->
  coluna_gasto_temp ∉ columns df ->
  exists df', etapa1 ga ano ps df = inr df' /\ columns df' = columns df.
Proof.
  intros Hnd. revert df. induction ps as [|p ps IH]; simpl; intros df Hw Hf Ht;
    [eauto|].
  destruct (atualizar_periodo_total ga ano df p Hw Hf Ht) as [df1 H1].
  rewrite H1. simpl.
  assert (columns df1 = columns df) as Hc.
  { apply (atualizar_periodo_inr _ _ Hnd) in H1
      as [[_ ->]|(_ & _ & -> & _)]; [done|].
    by apply filter_sem_temp. }
  destruct (IH df1) as (df' & H' & Hc'); try by rewrite Hc.
  exists df'. split; [done|]. by rewrite Hc'.
Qed.

(** The loop writes numbers only. *)
Lemma numerica_valor_periodo ga ano p r :
  numerica (valor_periodo ga ano p r) = true.
Proof.
  unfold valor_periodo, junta. by destruct (filter _ _).
Qed.

Lemma numerica_linha_periodo ga ano p r c :
  c <> coluna_gasto_temp ->
  numerica (get r c) = true ->
  numerica (get (linha_periodo ga ano p r) c) = true.
Proof.
  intros Hc Hn. unfold get at 1. rewrite lookup_linha_periodo by done.
  case_decide; [apply numerica_valor_periodo | done].
Qed.

Lemma numerica_linha_etapa1 ga ano cols ps r c :
  c <> coluna_gasto_temp ->
  numerica (get r c) = true ->
  numerica (get (linha_etapa1 ga ano cols ps r) c) = true.
Proof.
  intros Hc. revert r. induction ps as [|p ps IH]; simpl; intros r Hn; [done|].
  apply IH. case_bool_decide; [by apply numerica_linha_periodo | done].
Qed.

Lemma strip_prefix_prefix p c s :
  strip_prefix p c = Some s -> String.prefix p c = true.
Proof.
  revert c. induction p as [|a p IH]; intros [|b c]; simpl; try done.
  case_bool_decide; [|done]. subst. intros H.
  destruct (ascii_dec b b); [eauto|done].
Qed.

Lemma re_match_prefix c :
  re_match_period c = true -> String.prefix "Period " c = true.
Proof.
  unfold re_match_period.
  destruct (strip_prefix "Period " c) as [s|] eqn:H; [|done].
  intros _. by eapply strip_prefix_prefix.
Qed.

(** ** Typed budget: step 2 succeeds up to the check of [Total] *)

Lemma assign_res_total c f df :
  Forall (fun r => exists v, f r = inr v) (rows df) ->
  exists df', assign_res c f df = inr df'.
Proof.
  intros H. unfold assign_res.
  destruct (mapM_total (fun r => try! v := f r in ret (<[c := v]> r)) (rows df))
    as [rs Hrs].
  - intros r Hr. rewrite Forall_forall in H. destruct (H r Hr) as [v Hv].
    rewrite Hv. simpl. eauto.
  - rewrite Hrs. simpl. eauto.
Qed.

Lemma transform_sum_total df key val r :
  key ∈ columns df ->
  Forall (fun r' => numerica (get r' val) = true) (rows df) ->
  exists v, transform_sum df key val r = inr v.
Proof.
  intros Hk Hn. unfold transform_sum.
  rewrite (proj2 (has_column_true _ _)) by done. simpl.
  destruct (isna (get r key)); [eauto|].
  destruct (sum_cells_total ((fun r' => get r' val) <$> grupo df key r))
    as [q Hq].
  - apply Forall_fmap. unfold grupo.
    apply Forall_forall. intros r' Hr'.
    apply list_elem_of_filter in Hr' as [_ Hr'].
    rewrite Forall_forall in Hn. by apply Hn.
  - rewrite Hq. simpl. eauto.
Qed.

Lemma max_cells_total l :
  Forall (fun c => numerica c = true) l -> exists m, max_cells l = inr m.
Proof.
  induction 1 as [|c l Hc _ [m IH]]; simpl; [eauto|].
  destruct c; [eauto | rewrite IH; simpl; eauto | discriminate].
Qed.

Lemma transform_max_total df key val r :
  key ∈ columns df -> val ∈ columns df ->
  Forall (fun r' => numerica (get r' val) = true) (rows df) ->
  exists m, transform_max df key val r = inr m.
Proof.
  intros Hk Hv Hn. unfold transform_max.
  rewrite !(proj2 (has_column_true _ _)) by done. simpl.
  destruct (isna (get r key)); [eauto|].
  apply max_cells_total, Forall_fmap. unfold grupo.
  apply Forall_forall. intros r' Hr'.
  apply list_elem_of_filter in Hr' as [_ Hr'].
  rewrite Forall_forall in Hn. by apply Hn.
Qed.

Lemma columns_assign_res c f df df' x :
  assign_res c f df = inr df' ->
  x ∈ columns df' <-> x ∈ columns df \/ x = c.
Proof.
  intros H. apply assign_res_inr in H as [_ ->].
  destruct (has_column df c) eqn:Hc.
  - apply has_column_true in Hc. split; [auto|]. by intros [?| ->].
  - by rewrite elem_of_app, list_elem_of_singleton.
Qed.

Lemma linha_numerica_insert c v r :
  c <> FISCAL_YEAR -> c <> TOTAL -> c <> ORCAMENTO_REAL ->
  linha_numerica r -> linha_numerica (<[c := v]> r).
Proof.
  intros ??? (? & ? & ?). unfold linha_numerica.
  by rewrite !get_insert_ne.
Qed.

Lemma assign_res_numerica c f df df' :
  c <> FISCAL_YEAR -> c <> TOTAL -> c <> ORCAMENTO_REAL ->
  assign_res c f df = inr df' ->
  Forall linha_numerica (rows df) -> Forall linha_numerica (rows df').
Proof.
  intros ??? H Hn. apply assign_res_inr in H as [F _].
  eapply Forall2_Forall_r; [exact F|].
  eapply Forall_impl; [exact Hn|]. simpl.
  intros r Hr r' (v & _ & ->). by apply linha_numerica_insert.
Qed.

Lemma etapa2_tipado df :
  colunas_periodo df <> [] ->
  WBS_ELEMENT ∈ columns df -> FISCAL_YEAR ∈ columns df ->
  Forall (fun r => numerica (get r FISCAL_YEAR) = true /\
                   numerica (get r TOTAL) = true /\
                   Forall (fun c => numerica (get r c) = true)
                          (colunas_periodo df)) (rows df) ->
  (TOTAL ∉ columns df -> etapa2 df = MissingColumnError TOTAL) /\
  (TOTAL ∈ columns df -> exists t, etapa2 df = Returned t).
Proof.
  intros Hne Hw Hf Hn. unfold etapa2.
  destruct (colunas_periodo df) as [|c0 cs] eqn:Hcols; [done|].
  set (cols := c0 :: cs) in *. clear Hne.
  (* line 71 *)
  destruct (assign_res_total ORCAMENTO_REAL (orcamento_real_por_linha cols) df)
    as [df1 H1].
  { eapply Forall_impl; [exact Hn|]. simpl. intros r (_ & _ & Hr).
    unfold orcamento_real_por_linha.
    destruct (sum_cells_total (get r <$> cols)) as [q ->];
      [by apply Forall_fmap | simpl; eauto]. }
  assert (Forall linha_numerica (rows df1)) as Hn1.
  { pose proof H1 as [F _]%assign_res_inr.
    eapply Forall2_Forall_r; [exact F|].
    eapply Forall_impl; [exact Hn|]. simpl.
    intros r (Hy & Ht & _) r' (v & Hv & ->).
    unfold orcamento_real_por_linha in Hv.
    apply bind_inr in Hv as (s & _ & [= <-]).
    unfold linha_numerica. rewrite !get_insert_ne by nomes.
    by rewrite get_insert_eq. }
  rewrite H1. simpl.
  (* line 72 *)
  destruct (assign_res_total TOTAL_ACUMULADO
              (transform_sum df1 WBS_ELEMENT ORCAMENTO_REAL) df1) as [df2 H2].
  { apply Forall_forall. intros r _. apply transform_sum_total.
    - apply (columns_assign_res _ _ _ _ _ H1). by left.
    - eapply Forall_impl; [exact Hn1|]. by intros r' (_ & _ & ?). }
  pose proof (assign_res_numerica TOTAL_ACUMULADO _ _ _ ltac:(nomes)
                ltac:(nomes) ltac:(nomes) H2 Hn1) as Hn2.
  rewrite H2. simpl.
  assert (forall x, x ∈ columns df -> x ∈ columns df2) as Hsub.
  { intros x Hx. apply (columns_assign_res _ _ _ _ _ H2). left.
    apply (columns_assign_res _ _ _ _ _ H1). by left. }
  (* line 73 *)
  split.
  { intros Ht. rewrite (proj2 (has_column_false df2 TOTAL)); [done|].
    intros Hin. apply (columns_assign_res _ _ _ _ _ H2) in Hin as [Hin|E];
      [|vm_compute in E; discriminate E].
    apply (columns_assign_res _ _ _ _ _ H1) in Hin as [Hin|E];
      [done|vm_compute in E; discriminate E]. }
  intros Ht. rewrite (proj2 (has_column_true df2 TOTAL)) by auto. simpl.
  (* line 76 *)
  destruct (assign_res_total TOTAL_ORCADO
              (transform_sum df2 WBS_ELEMENT TOTAL) df2) as [df3 H3].
  { apply Forall_forall. intros r _. apply transform_sum_total; [auto|].
    eapply Forall_impl; [exact Hn2|]. by intros r' (_ & ? & _). }
  pose proof (assign_res_numerica TOTAL_ORCADO _ _ _ ltac:(nomes)
                ltac:(nomes) ltac:(nomes) H3 Hn2) as Hn3.
  rewrite H3. simpl.
  (* lines 77-80 *)
  assert (forall x, x ∈ columns df -> x ∈ columns df3) as Hsub3.
  { intros x Hx. apply (columns_assign_res _ _ _ _ _ H3). auto. }
  set (df4 := assign SALDO _ df3).
  assert (exists df5, mascarar_linhas df4 = inr df5) as [df5 H5].
  { unfold mascarar_linhas.
    destruct (mapM_total
                (fun r => try! m := transform_max df4 WBS_ELEMENT FISCAL_YEAR r in
                          ret (mascarar m r)) (rows df4)) as [rs Hrs].
    - intros r _.
      assert (forall x, x ∈ columns df -> x ∈ columns df4) as Hsub4.
      { intros x Hx. unfold df4, assign. simpl.
        destruct (has_column df3 SALDO); [auto|].
        apply elem_of_app. left. auto. }
      destruct (transform_max_total df4 WBS_ELEMENT FISCAL_YEAR r)
        as [m Hm]; [auto | auto | | rewrite Hm; simpl; eauto].
      unfold df4, assign. simpl. apply Forall_fmap.
      eapply Forall_impl; [exact Hn3|]. simpl. intros r' (? & _ & _).
      by rewrite get_insert_ne by nomes.
    - rewrite Hrs. simpl. eauto. }
  rewrite H5. simpl. eauto.
Qed.

(** ** Typed tables: the outcome is decided by the column [Total] *)



(** ** Where the assumptions of the claims matter *)

(** A row without a fiscal year is outside the data model; line 79 compares
    it with nothing, so it is never masked. *)
Example linha_sem_ano_nao_mascarada :
  let o := processar_dados_streamlit orcamento_sem_ano gastos_exemplo 2026 1 3 in
  celula o 1 FISCAL_YEAR = Some NA /\
  celula o 1 TOTAL_ORCADO = Some (Num (zq 300)) /\
  celula o 1 TOTAL_ACUMULADO = Some (Num (zq 81)) /\
  celula o 1 SALDO = Some (Num (zq 219)).
Proof. repeat split. Qed.

(** The pattern of line 67 has no sign, while line 51 formats any integer:
    a period range below zero can reach a column the pattern does not
    count. *)
Example periodo_negativo :
  let o := processar_dados_streamlit orcamento_periodo_negativo
             gastos_periodo_negativo 2026 (-1) 3 in
  colunas_periodo orcamento_periodo_negativo = [] /\
  (exists t, o = Warned t) /\
  celula o 0 "Period -1" = Some (Num (zq 50)).
Proof. repeat split. eexists. reflexivity. Qed.

(** * The claims *)








(** C4: in a table returned by line 82, a row of the latest fiscal year of
    its project has a budgeted total, an accumulated total, and a balance
    that is exactly their difference. *)
Theorem C4_balance_identity orc gastos ano p_i p_f t r y :
  processar_dados_streamlit orc gastos ano p_i p_f = Returned t ->
  r ∈ rows t ->
  get r WBS_ELEMENT <> NA ->
  get r FISCAL_YEAR = Num y ->
  ano_maximo t (get r WBS_ELEMENT) y ->
  exists a b,
    r !! TOTAL_ORCADO = Some (Num a) /\
    r !! TOTAL_ACUMULADO = Some (Num b) /\
    r !! SALDO = Some (Num (a - b)%Qc).
Proof.
  intros H Hin Hw Hy [Hmem Hub].
  apply processar_inv in H as [[e He]|(ga & df & _ & _ & H)]; [discriminate|].
  apply etapa2_Returned in H as (_ & _ & F).
  pose proof Hin as Hin'.
  apply list_elem_of_lookup in Hin' as [i Hi].
  destruct (Forall2_lookup_r _ _ _ _ _ F Hi) as (r0 & _ & Hr).
  destruct (derivados_retornados _ _ _ _ Hr Hw Hy Hin)
    as (M & [HMmem HMub] & Heq & _).
  apply Heq. apply Qcle_antisym; auto.
Qed.

(** C4 on the scenario of section 8: the 2026 row of P1. *)
Lemma C4_balance_identity_witness :
  exists a b,
    linha_de tabela_ex 1 !! TOTAL_ORCADO = Some (Num a) /\
    linha_de tabela_ex 1 !! TOTAL_ACUMULADO = Some (Num b) /\
    linha_de tabela_ex 1 !! SALDO = Some (Num (a - b)%Qc).
Proof.
  apply (C4_balance_identity orcamento_ex gastos_exemplo 2026 1 3 tabela_ex
           (linha_de tabela_ex 1) (zq 2026)).
  - reflexivity.
  - apply (list_elem_of_lookup_2 _ 1%nat). reflexivity.
  - intros H. vm_compute in H. discriminate H.
  - reflexivity.
  - split.
    + apply (list_elem_of_lookup_2 _ 1%nat). reflexivity.
    + intros y Hy. apply list_elem_of_lookup in Hy as [i Hi].
      destruct i as [|[|i]]; vm_compute in Hi; try discriminate Hi;
        injection Hi as <-; vm_compute; discriminate.
Defined.



(** C6: whenever a table is returned, a budget row whose fiscal year is not
    the year being updated keeps, at the same position, the value of every
    column whose name starts with [Period ]. *)
Theorem C6_other_years_untouched orc gastos ano p_i p_f t i r r' c :
  devolve (processar_dados_streamlit orc gastos ano p_i p_f) t ->
  rows orc !! i = Some r ->
  rows t !! i = Some r' ->
  eq_int (get r FISCAL_YEAR) ano = false ->
  String.prefix "Period " c = true ->
  r' !! c = r !! c.
Proof.
  intros Hd Hr Hr' Hano Hc.
  apply processar_devolve in Hd as (ga & _ & F).
  assert (rows (drop_unnamed orc) !! i
          = Some (filter (fun kv : string * cell => unnamed kv.1 = false) r))
    as Hs by (simpl; by rewrite list_lookup_fmap, Hr).
  rewrite (Forall2_lookup_lr _ _ _ _ _ _ F Hs Hr')
    by by apply periodo_fora_da_etapa2.
  rewrite lookup_linha_etapa1_outro_ano.
  - apply lookup_sem_unnamed. by apply periodo_nao_unnamed.
  - outro_nome.
  - by rewrite get_sem_unnamed.
Qed.

(** C6 on the scenario of section 8: the 2025 row keeps [Period 1]. *)
Lemma C6_other_years_untouched_witness :
  linha_de tabela_ex 0 !! "Period 1" = linha_de orcamento_ex 0 !! "Period 1".
Proof.
  apply (C6_other_years_untouched orcamento_ex gastos_exemplo 2026 1 3
           tabela_ex 0).
  - left. reflexivity.
  - reflexivity.
  - reflexivity.
  - reflexivity.
  - reflexivity.
Defined.

(** C7, as the source computes it: the 2026 row takes 75, 0 and 0, the 2025
    row keeps its period values, the budgeted total of the 2026 row is 600,
    its accumulated total is the sum of the period columns of both rows of
    P1 (the 2025 values and 75), its balance is the difference of the two,
    and the three derived fields of the 2025 row are missing. *)
Theorem C7_cenario (a1 a2 a3 b1 b2 b3 : Qc) :
  let o := cenario a1 a2 a3 b1 b2 b3 in
  celula o 1 "Period 1" = Some (Num (zq 75)) /\
  celula o 1 "Period 2" = Some (Num (zq 0)) /\
  celula o 1 "Period 3" = Some (Num (zq 0)) /\
  celula o 0 "Period 1" = Some (Num a1) /\
  celula o 0 "Period 2" = Some (Num a2) /\
  celula o 0 "Period 3" = Some (Num a3) /\
  celula o 1 TOTAL_ORCADO = Some (Num (zq 600)) /\
  celula o 1 TOTAL_ACUMULADO = Some (Num (a1 + a2 + a3 + zq 75)%Qc) /\
  celula o 1 SALDO = Some (Num (zq 600 - (a1 + a2 + a3 + zq 75))%Qc) /\
  celula o 0 TOTAL_ORCADO = Some NA /\
  celula o 0 TOTAL_ACUMULADO = Some NA /\
  celula o 0 SALDO = Some NA.
Proof.
  intros o. subst o.
  rewrite cenario_total_acumulado, cenario_saldo.
  repeat split; rewrite zq_0; do 2 f_equal; ring.
Qed.

(** C7 as the specification states it fails as soon as the 2025 row holds
    period values that do not add up to zero: with 10, 20 and 30 there, the
    accumulated total of the 2026 row is 135, not 75. *)
Lemma C7_cenario_not_own_row_sum :
  ~ cenario_como_especificado (zq 10) (zq 20) (zq 30) (zq 1) (zq 2) (zq 3).
Proof.
  intros (p1 & p2 & p3 & ta & _ & -> & _ & -> & _ & -> & _ & _ & _ & _
          & Hta & Hsum & _).
  vm_compute in Hta. injection Hta as <-.
  apply (f_equal this) in Hsum. vm_compute in Hsum. discriminate.
Qed.

(** C8, as the source has it: the discovered period columns are exactly the
    columns matching [Period <digits>], in ascending order of the whole name
    compared character by character; so [Period 10] comes before [Period 2]. *)
Theorem C8_colunas_periodo_lexicographic :
  (forall df,
     Sorted leb_str (colunas_periodo df) /\
     colunas_periodo df
       ≡ₚ filter (fun c => re_match_period c = true) (columns df)) /\
  colunas_periodo (so_colunas ["Period 2"; "Total"; "Period 10"])
    = ["Period 10"; "Period 2"].
Proof.
  split; [|reflexivity].
  intros df. split; [apply sorted_sorted | apply sorted_perm].
Qed.

(** C8 as the specification states it fails: with the columns [Period 2] and
    [Period 10] the discovered list is not in numeric order. *)
Lemma C8_not_numeric_order :
  ~ ordem_numerica (colunas_periodo (so_colunas ["Period 2"; "Period 10"])).
Proof.
  intros H.
  specialize (H 0%nat 1%nat "Period 10" "Period 2" 10 2).
  assert (10 <= 2) as Hle by (apply H; [lia | reflexivity ..]).
  lia.
Qed.

(** C9: whenever a table is returned it has as many rows as the budget
    table, and its row at each position is the budget row of that position
    (after the unnamed columns are stripped): same project code, same fiscal
    year, and the same value in every column the function does not write. *)
Theorem C9_rows_preserved orc gastos ano p_i p_f t :
  devolve (processar_dados_streamlit orc gastos ano p_i p_f) t ->
  length (rows t) = length (rows (drop_unnamed orc)) /\
  forall i r r',
    rows (drop_unnamed orc) !! i = Some r ->
    rows t !! i = Some r' ->
    get r' WBS_ELEMENT = get r WBS_ELEMENT /\
    get r' FISCAL_YEAR = get r FISCAL_YEAR /\
    forall c, ~ coluna_escrita p_i p_f c -> r' !! c = r !! c.
Proof.
  intros Hd. apply processar_devolve in Hd as (ga & _ & F).
  split; [symmetry; by eapply Forall2_length|].
  intros i r r' Hr Hr'.
  assert (forall c, ~ coluna_escrita p_i p_f c -> r' !! c = r !! c) as Hc.
  { intros c Hc. unfold coluna_escrita in Hc.
    rewrite (Forall2_lookup_lr _ _ _ _ _ _ F Hr Hr') by tauto.
    apply lookup_linha_etapa1_ne; [tauto|].
    intros p Hp E. apply elem_of_periodos in Hp. apply Hc. eauto. }
  destruct chaves_fora_da_etapa2 as [Hkw Hkf].
  assert (forall p, WBS_ELEMENT <> target_col p) as Hpw by (intros; outro_nome).
  assert (forall p, FISCAL_YEAR <> target_col p) as Hpf by (intros; outro_nome).
  split; [|split; [|done]]; apply get_lookup, Hc; unfold coluna_escrita;
    (intros [?|[?|(p & _ & E)]]; [done | discriminate | ]).
  - by apply (Hpw p).
  - by apply (Hpf p).
Qed.

(** C9 on a budget that holds the key (P1, 2026) twice. *)
Lemma C9_rows_preserved_witness :
  length (rows tabela_duplicado) = length (rows (drop_unnamed orcamento_duplicado)) /\
  forall i r r',
    rows (drop_unnamed orcamento_duplicado) !! i = Some r ->
    rows tabela_duplicado !! i = Some r' ->
    get r' WBS_ELEMENT = get r WBS_ELEMENT /\
    get r' FISCAL_YEAR = get r FISCAL_YEAR /\
    forall c, ~ coluna_escrita 1 3 c -> r' !! c = r !! c.
Proof.
  apply (C9_rows_preserved orcamento_duplicado gastos_exemplo 2026 1 3).
  left. reflexivity.
Defined.



(** * Further properties of the function *)

(** ** The columns of the returned table *)

Lemma elem_of_com_coluna c cols x :
  x ∈ com_coluna c cols <-> x ∈ cols \/ x = c.
Proof.
  unfold com_coluna. case_bool_decide as Hc.
  - split; [auto|]. by intros [?| ->].
  - by rewrite elem_of_app, list_elem_of_singleton.
Qed.

Lemma columns_assign_res_eq c f df df' :
  assign_res c f df = inr df' -> columns df' = com_coluna c (columns df).
Proof. intros H. by apply assign_res_inr in H as [_ ->]. Qed.

Lemma etapa2_Returned_columns df t :
  etapa2 df = Returned t -> columns t = colunas_finais (columns df).
Proof.
  unfold etapa2. destruct (colunas_periodo df) as [|c0 cs]; [discriminate|].
  intros H.
  match type of H with outcome_of ?x = _ => destruct x as [e|o] eqn:Hin end;
    simpl in H; [discriminate|]. subst o.
  apply bind_inr in Hin as (df1 & H1 & Hin).
  apply bind_inr in Hin as (df2 & H2 & Hin).
  destruct (has_column df2 TOTAL); simpl in Hin; [|discriminate].
  apply bind_inr in Hin as (df3 & H3 & Hin).
  apply bind_inr in Hin as (df5 & H5 & Hin).
  injection Hin as <-.
  apply mascarar_linhas_inr in H5 as [_ C5]. simpl. rewrite C5. simpl.
  apply columns_assign_res_eq in H1, H2, H3.
  unfold has_column. by rewrite H3, H2, H1.
Qed.

Lemma elem_of_colunas_finais cols x :
  x ∈ colunas_finais cols <->
  x <> ORCAMENTO_REAL /\
  (x ∈ cols \/ x = TOTAL_ACUMULADO \/ x = TOTAL_ORCADO \/ x = SALDO).
Proof.
  unfold colunas_finais.
  rewrite list_elem_of_filter, !elem_of_com_coluna.
  split; [intros [? H]; split; [done|] | intros [? H]; split; [done|]].
  - destruct H as [[[[?|E]|?]|?]|?]; auto. done.
  - destruct H as [?|[?|[?|?]]]; auto.
Qed.

Section colunas_da_etapa1.
Context (ga : list (chave * Qc)) (ano : Z).
Hypothesis Hnd : NoDup (fst <$> ga).

Lemma filter_sem_temp_idemp (cols : list string) :
  filter (fun c => c <> coluna_gasto_temp)
         (filter (fun c => c <> coluna_gasto_temp) cols)
  = filter (fun c => c <> coluna_gasto_temp) cols.
Proof.
  apply filter_todos, Forall_forall. intros c Hc.
  by apply list_elem_of_filter in Hc as [? _].
Qed.

(** The loop leaves the columns as they are, or removes the scratch
    column; it removes it as soon as one period of the range is present. *)
Lemma etapa1_columns ps df df' :
  etapa1 ga ano ps df = inr df' ->
  (columns df' = columns df \/
   columns df' = filter (fun c => c <> coluna_gasto_temp) (columns df)) /\
  (Exists (fun p => target_col p ∈ columns df) ps ->
   columns df' = filter (fun c => c <> coluna_gasto_temp) (columns df)).
Proof.
  revert df. induction ps as [|p ps IH]; simpl; intros df H.
  - injection H as <-. split; [by left|]. by intros ?%Exists_nil.
  - apply bind_inr in H as (df1 & H1 & H).
    apply IH in H as [Hor Hex].
    apply (atualizar_periodo_inr _ _ Hnd) in H1
      as [[Hp ->]|(Hp & _ & Hc1 & _)].
    + split; [done|]. intros [?|?]%Exists_cons; [done|auto].
    + assert (columns df'
              = filter (fun c => c <> coluna_gasto_temp) (columns df)) as E.
      { destruct Hor as [-> | ->]; rewrite Hc1; [done|].
        apply filter_sem_temp_idemp. }
      split; [by right | done].
Qed.

Lemma lookup_linha_etapa1_temp_None cols ps (r : gmap string cell) :
  r !! coluna_gasto_temp = None ->
  linha_etapa1 ga ano cols ps r !! coluna_gasto_temp = None.
Proof.
  revert r. induction ps as [|p ps IH]; simpl; intros r Hr; [done|].
  apply IH. case_bool_decide; [|done].
  unfold linha_periodo. apply lookup_delete_eq.
Qed.

Lemma lookup_linha_etapa1_temp cols ps (r : gmap string cell) :
  Exists (fun p => target_col p ∈ cols) ps ->
  linha_etapa1 ga ano cols ps r !! coluna_gasto_temp = None.
Proof.
  revert r. induction ps as [|p ps IH]; simpl; intros r Hex;
    [by apply Exists_nil in Hex|].
  case_bool_decide as Hp.
  - apply lookup_linha_etapa1_temp_None. unfold linha_periodo.
    apply lookup_delete_eq.
  - apply IH. by apply Exists_cons in Hex as [?|?].
Qed.

End colunas_da_etapa1.

Lemma processar_devolve_df orc gastos ano p_i p_f t :
  devolve (processar_dados_streamlit orc gastos ano p_i p_f) t ->
  exists ga df,
    gastos_agrupados (drop_unnamed gastos) = inr ga /\
    etapa1 ga ano (periodos p_i p_f) (drop_unnamed orc) = inr df /\
    devolve (etapa2 df) t.
Proof.
  intros Hd.
  destruct (processar_inv orc gastos ano p_i p_f _ eq_refl)
    as [[e He]|(ga & df & Hga & Hdf & Ho)].
  { rewrite He in Hd. destruct Hd; discriminate. }
  rewrite <- Ho in Hd. eauto.
Qed.

(** The columns of a returned table come from the stripped budget, or are
    the three derived columns. *)
Lemma columns_devolve orc gastos ano p_i p_f t c :
  devolve (processar_dados_streamlit orc gastos ano p_i p_f) t ->
  c ∈ columns t ->
  c ∈ columns (drop_unnamed orc) \/
  c = TOTAL_ACUMULADO \/ c = TOTAL_ORCADO \/ c = SALDO.
Proof.
  intros Hd Hc.
  apply processar_devolve_df in Hd as (ga & df & Hga & Hdf & Hd).
  pose proof (gastos_agrupados_NoDup _ _ Hga) as Hnd.
  apply (etapa1_columns _ _ Hnd) in Hdf as [Hcols _].
  assert (forall x, x ∈ columns df -> x ∈ columns (drop_unnamed orc)) as Hsub.
  { intros x Hx. destruct Hcols as [E|E]; rewrite E in Hx; [done|].
    by apply list_elem_of_filter in Hx as [_ ?]. }
  destruct Hd as [Hd|Hd].
  - apply etapa2_Returned_columns in Hd. rewrite Hd in Hc.
    apply elem_of_colunas_finais in Hc as [_ [?|?]]; auto.
  - apply etapa2_Warned in Hd as [-> _]. auto.
Qed.

Lemma unnamed_fora_da_etapa2 c : unnamed c = true -> c ∉ colunas_etapa2.
Proof.
  intros Hu. unfold colunas_etapa2. rewrite !not_elem_of_cons.
  repeat split; try (intros ->; vm_compute in Hu; discriminate Hu).
  apply not_elem_of_nil.
Qed.

Lemma colunas_sem_unnamed orc gastos ano p_i p_f t :
  devolve (processar_dados_streamlit orc gastos ano p_i p_f) t ->
  Forall (fun c => unnamed c = false) (columns t).
Proof.
  intros Hd. apply Forall_forall. intros c Hc.
  destruct (columns_devolve _ _ _ _ _ _ _ Hd Hc) as [Hin|[->|[->| ->]]];
    try reflexivity.
  by apply elem_of_columns_drop_unnamed in Hin as [? _].
Qed.

Lemma celulas_sem_unnamed orc gastos ano p_i p_f t (r : gmap string cell) c :
  devolve (processar_dados_streamlit orc gastos ano p_i p_f) t ->
  r ∈ rows t -> unnamed c = true -> r !! c = None.
Proof.
  intros Hd Hr Hu.
  apply processar_devolve in Hd as (ga & _ & F).
  apply list_elem_of_lookup in Hr as [i Hi].
  destruct (Forall2_lookup_r _ _ _ _ _ F Hi) as (r0 & Hr0 & Hc).
  rewrite Hc by by apply unnamed_fora_da_etapa2.
  rewrite lookup_linha_etapa1_ne.
  - simpl in Hr0. rewrite list_lookup_fmap in Hr0.
    destruct (rows orc !! i) as [r00|]; [|discriminate].
    injection Hr0 as <-. apply map_lookup_filter_None_2. right.
    intros v _. simpl. by rewrite Hu.
  - intros ->. vm_compute in Hu. discriminate Hu.
  - intros p _ ->. pose proof (target_col_prefix p) as Hp.
    apply periodo_nao_unnamed in Hp. congruence.
Qed.

(** X1. No unnamed column comes back: whenever a table is returned, none of
    its columns has a name starting with [Unnamed], and none of its rows
    holds a cell under such a name. *)
Theorem X1_no_unnamed_column_returned orc gastos ano p_i p_f t :
  devolve (processar_dados_streamlit orc gastos ano p_i p_f) t ->
  Forall (fun c => unnamed c = false) (columns t) /\
  forall r c, r ∈ rows t -> unnamed c = true -> r !! c = None.
Proof.
  intros Hd. split.
  - by eapply colunas_sem_unnamed.
  - intros r c. by eapply celulas_sem_unnamed.
Qed.

(** X1 on a budget that has an unnamed column. *)
Lemma X1_no_unnamed_column_returned_witness :
  Forall (fun c => unnamed c = false) (columns tabela_duplicado) /\
  forall r c, r ∈ rows tabela_duplicado -> unnamed c = true -> r !! c = None.
Proof.
  apply (X1_no_unnamed_column_returned orcamento_duplicado gastos_exemplo
           2026 1 3).
  left. reflexivity.
Defined.

(** X2. The working columns never come back. The table of line 82 has no
    column [OrcamentoRealPorLinha]; and when the budget has the column of
    some period of the range, no returned table has the column
    [gasto_temp_para_atualizar]: a budget column of either name is lost. *)
Theorem X2_working_columns_never_returned orc gastos ano p_i p_f t :
  devolve (processar_dados_streamlit orc gastos ano p_i p_f) t ->
  (processar_dados_streamlit orc gastos ano p_i p_f = Returned t ->
   (ORCAMENTO_REAL ∉ columns t) /\
   forall r, r ∈ rows t -> r !! ORCAMENTO_REAL = None) /\
  (forall p, p_i <= p <= p_f -> target_col p ∈ columns orc ->
   (coluna_gasto_temp ∉ columns t) /\
   forall r, r ∈ rows t -> r !! coluna_gasto_temp = None).
Proof.
  intros Hd. split.
  - intros HR.
    apply processar_inv in HR as [[e He]|(ga & df & _ & _ & HR)];
      [discriminate|].
    split.
    + rewrite (etapa2_Returned_columns _ _ HR).
      intros Hin. by apply elem_of_colunas_finais in Hin as [? _].
    + intros r Hr. apply etapa2_Returned in HR as (_ & _ & F).
      apply list_elem_of_lookup in Hr as [i Hi].
      destruct (Forall2_lookup_r _ _ _ _ _ F Hi)
        as (r0 & _ & v & ta & to & m & -> & _).
      unfold linha_etapa2. apply lookup_delete_eq.
  - intros p Hp Hcol.
    assert (Exists (fun p => target_col p ∈ columns (drop_unnamed orc))
                   (periodos p_i p_f)) as Hex.
    { apply Exists_exists. exists p. split; [by apply elem_of_periodos|].
      apply elem_of_columns_drop_unnamed. split; [|done].
      apply periodo_nao_unnamed, target_col_prefix. }
    pose proof Hd as Hd'.
    apply processar_devolve_df in Hd' as (ga & df & Hga & Hdf & Hd2).
    pose proof (gastos_agrupados_NoDup _ _ Hga) as Hnd.
    pose proof (etapa1_columns _ _ Hnd _ _ _ Hdf) as [_ Hcols].
    specialize (Hcols Hex).
    assert (coluna_gasto_temp ∉ columns df) as Hdfc.
    { rewrite Hcols. intros Hin. by apply list_elem_of_filter in Hin as [? _]. }
    split.
    + destruct Hd2 as [Hd2|Hd2].
      * rewrite (etapa2_Returned_columns _ _ Hd2). intros Hin.
        apply elem_of_colunas_finais in Hin as [_ [?|[E|[E|E]]]];
          [done|discriminate E..].
      * by apply etapa2_Warned in Hd2 as [-> _].
    + intros r Hr. apply processar_devolve in Hd as (ga' & Hga' & F).
      rewrite Hga in Hga'. injection Hga' as <-.
      apply list_elem_of_lookup in Hr as [i Hi].
      destruct (Forall2_lookup_r _ _ _ _ _ F Hi) as (r0 & _ & Hc).
      rewrite Hc.
      * by apply lookup_linha_etapa1_temp.
      * unfold colunas_etapa2. rewrite !not_elem_of_cons.
        repeat split; try discriminate. apply not_elem_of_nil.
Qed.

(** X2 on a budget that has columns of both names. *)
Lemma X2_working_columns_never_returned_witness :
  ((ORCAMENTO_REAL ∉ columns tabela_nomes_reservados) /\
   forall r, r ∈ rows tabela_nomes_reservados -> r !! ORCAMENTO_REAL = None) /\
  ((coluna_gasto_temp ∉ columns tabela_nomes_reservados) /\
   forall r, r ∈ rows tabela_nomes_reservados ->
             r !! coluna_gasto_temp = None).
Proof.
  destruct (X2_working_columns_never_returned orcamento_nomes_reservados
              gastos_exemplo 2026 2 3 tabela_nomes_reservados) as [H1 H2].
  - left. reflexivity.
  - split.
    + apply H1. reflexivity.
    + apply (H2 2); [lia|].
      apply (bool_decide_unpack _). vm_compute. exact I.
Defined.

Lemma com_coluna_nova c cols :
  c ∉ cols -> com_coluna c cols = (cols ++ [c])%list.
Proof. intros H. unfold com_coluna. by rewrite bool_decide_eq_false_2. Qed.

Lemma colunas_finais_novas cols :
  ORCAMENTO_REAL ∉ cols -> TOTAL_ACUMULADO ∉ cols ->
  TOTAL_ORCADO ∉ cols -> SALDO ∉ cols ->
  colunas_finais cols
  = (cols ++ [TOTAL_ACUMULADO; TOTAL_ORCADO; SALDO])%list.
Proof.
  intros Ho Ha Hb Hs. unfold colunas_finais.
  rewrite (com_coluna_nova ORCAMENTO_REAL) by done.
  rewrite (com_coluna_nova TOTAL_ACUMULADO).
  2:{ rewrite elem_of_app, list_elem_of_singleton. intros [?|E]; [done|].
      discriminate E. }
  rewrite (com_coluna_nova TOTAL_ORCADO).
  2:{ rewrite !elem_of_app, !list_elem_of_singleton.
      intros [[?|E]|E]; [done|discriminate E..]. }
  rewrite (com_coluna_nova SALDO).
  2:{ rewrite !elem_of_app, !list_elem_of_singleton.
      intros [[[?|E]|E]|E]; [done|discriminate E..]. }
  rewrite !filter_app.
  rewrite (filter_todos _ cols) by (apply Forall_forall; by intros c Hc ->).
  rewrite <- !app_assoc. reflexivity.
Qed.

(** X3. The layout of the result. When the budget uses none of the names
    the function reserves for its own columns, the table of line 82 has the
    columns of the budget without the unnamed ones, in their order, followed
    by [Total Acumulado], [Total Orcado] and [Saldo], in this order; a table
    returned with the warning has the columns of the budget without the
    unnamed ones. *)
Theorem X3_column_layout orc gastos ano p_i p_f t :
  Forall (fun c => c ∉ columns orc) nomes_reservados ->
  devolve (processar_dados_streamlit orc gastos ano p_i p_f) t ->
  (processar_dados_streamlit orc gastos ano p_i p_f = Returned t ->
   columns t = (columns (drop_unnamed orc)
                ++ [TOTAL_ACUMULADO; TOTAL_ORCADO; SALDO])%list) /\
  (processar_dados_streamlit orc gastos ano p_i p_f = Warned t ->
   columns t = columns (drop_unnamed orc)).
Proof.
  intros Hres Hd.
  apply Forall_cons in Hres as [Ht Hres].
  apply Forall_cons in Hres as [Ho Hres].
  apply Forall_cons in Hres as [Ha Hres].
  apply Forall_cons in Hres as [Hb Hres].
  apply Forall_cons in Hres as [Hs _].
  assert (forall c, c ∉ columns orc -> c ∉ columns (drop_unnamed orc)) as Hn.
  { intros c Hc [_ ?]%elem_of_columns_drop_unnamed. done. }
  apply processar_devolve_df in Hd as (ga & df & Hga & Hdf & Hd).
  pose proof (gastos_agrupados_NoDup _ _ Hga) as Hnd.
  assert (columns df = columns (drop_unnamed orc)) as Hcols.
  { apply (etapa1_columns _ _ Hnd) in Hdf as [[E|E] _]; [done|].
    rewrite E. apply filter_sem_temp. by apply Hn. }
  assert (processar_dados_streamlit orc gastos ano p_i p_f = etapa2 df) as E.
  { unfold processar_dados_streamlit. rewrite Hga. simpl. by rewrite Hdf. }
  rewrite E. split.
  - intros HR. rewrite (etapa2_Returned_columns _ _ HR), Hcols.
    apply colunas_finais_novas; by apply Hn.
  - intros HW. by apply etapa2_Warned in HW as [-> _].
Qed.

(** X3 on the scenario of section 8. *)
Lemma X3_column_layout_witness :
  columns tabela_ex
  = (columns (drop_unnamed orcamento_ex)
     ++ [TOTAL_ACUMULADO; TOTAL_ORCADO; SALDO])%list.
Proof.
  apply (X3_column_layout orcamento_ex gastos_exemplo 2026 1 3 tabela_ex).
  - apply (bool_decide_unpack _). vm_compute. exact I.
  - left. reflexivity.
  - reflexivity.
Defined.

(** X4. A row without a project code gets no totals: in the table of line
    82 its three derived fields are missing. *)
Theorem X4_no_project_code_no_totals orc gastos ano p_i p_f t r :
  processar_dados_streamlit orc gastos ano p_i p_f = Returned t ->
  r ∈ rows t ->
  get r WBS_ELEMENT = NA ->
  r !! TOTAL_ORCADO = Some NA /\
  r !! TOTAL_ACUMULADO = Some NA /\
  r !! SALDO = Some NA.
Proof.
  intros H Hin Hw.
  apply processar_inv in H as [[e He]|(ga & df & _ & _ & H)]; [discriminate|].
  apply etapa2_Returned in H as (_ & _ & F).
  apply list_elem_of_lookup in Hin as [i Hi].
  destruct (Forall2_lookup_r _ _ _ _ _ F Hi)
    as (r0 & _ & v & ta & to & m & -> & H).
  destruct chaves_fora_da_etapa2 as [Hkw _].
  rewrite get_linha_etapa2_ne in Hw by done. rewrite Hw in H. simpl in H.
  destruct H as (-> & -> & ->).
  pose proof (derivados_linha_etapa2 v NA NA NA r0) as Hd. simpl in Hd.
  destruct (lt_cells (get r0 FISCAL_YEAR) NA); exact Hd.
Qed.

(** X4 on a budget whose second row has no project code. *)
Lemma X4_no_project_code_no_totals_witness :
  linha_de tabela_sem_projeto 1 !! TOTAL_ORCADO = Some NA /\
  linha_de tabela_sem_projeto 1 !! TOTAL_ACUMULADO = Some NA /\
  linha_de tabela_sem_projeto 1 !! SALDO = Some NA.
Proof.
  apply (X4_no_project_code_no_totals orcamento_sem_projeto gastos_exemplo
           2026 1 3 tabela_sem_projeto).
  - reflexivity.
  - apply (list_elem_of_lookup_2 _ 1%nat). reflexivity.
  - reflexivity.
Defined.

(** ** Failures *)

Lemma gastos_agrupados_ausente df c :
  primeira_ausente colunas_de_gastos df = Some c ->
  gastos_agrupados df = inl (KeyError c).
Proof.
  unfold primeira_ausente, colunas_de_gastos, gastos_agrupados.
  destruct (decide (FISCAL_YEAR ∈ columns df)) as [H1|H1].
  2:{ rewrite filter_cons_True by done. intros [= <-].
      by rewrite (proj2 (has_column_false _ _) H1). }
  rewrite filter_cons_False by (intros H; by apply H).
  rewrite (proj2 (has_column_true _ _) H1). simpl.
  destruct (decide (WBS_ELEMENT ∈ columns df)) as [H2|H2].
  2:{ rewrite filter_cons_True by done. intros [= <-].
      by rewrite (proj2 (has_column_false _ _) H2). }
  rewrite filter_cons_False by (intros H; by apply H).
  rewrite (proj2 (has_column_true _ _) H2). simpl.
  destruct (decide (PERIOD ∈ columns df)) as [H3|H3].
  2:{ rewrite filter_cons_True by done. intros [= <-].
      by rewrite (proj2 (has_column_false _ _) H3). }
  rewrite filter_cons_False by (intros H; by apply H).
  rewrite (proj2 (has_column_true _ _) H3). simpl.
  destruct (decide (VALUE ∈ columns df)) as [H4|H4].
  2:{ rewrite filter_cons_True by done. intros [= <-].
      by rewrite (proj2 (has_column_false _ _) H4). }
  rewrite filter_cons_False by (intros H; by apply H).
  discriminate.
Qed.

(** X5. An expenditure table that lacks one of its four columns (after the
    unnamed columns are stripped) ends the function in the catch-all error,
    with the first missing column as the key that was not found, whatever
    the budget and the parameters; no table is returned. *)
Theorem X5_missing_expenditure_column orc gastos ano p_i p_f c :
  primeira_ausente colunas_de_gastos (drop_unnamed gastos) = Some c ->
  processar_dados_streamlit orc gastos ano p_i p_f
  = UnexpectedError (KeyError c).
Proof.
  intros H. unfold processar_dados_streamlit.
  by rewrite (gastos_agrupados_ausente _ _ H).
Qed.

(** X5 on expenditures without the column [Period]. *)
Lemma X5_missing_expenditure_column_witness :
  processar_dados_streamlit orcamento_ex gastos_sem_periodo 2026 1 3
  = UnexpectedError (KeyError PERIOD).
Proof. apply X5_missing_expenditure_column. reflexivity. Defined.

Lemma etapa1_sem_ano ga ano ps df :
  FISCAL_YEAR ∉ columns df -> WBS_ELEMENT ∈ columns df ->
  Exists (fun p => target_col p ∈ columns df) ps ->
  etapa1 ga ano ps df = inl (KeyError FISCAL_YEAR).
Proof.
  intros Hf Hw. induction ps as [|p ps IH]; simpl; intros Hex;
    [by apply Exists_nil in Hex|].
  unfold atualizar_periodo.
  destruct (has_column df (target_col p)) eqn:Hp; simpl.
  - apply has_column_false in Hf.
    destruct (gastos_do_periodo ga ano p) as [|g gp]; simpl.
    + unfold has_column at 1. simpl.
      unfold has_column in Hf. rewrite bool_decide_eq_false in Hf.
      destruct (has_column df coluna_gasto_temp) eqn:Ht.
      * rewrite bool_decide_eq_false_2 by done. done.
      * rewrite bool_decide_eq_false_2; [done|].
        rewrite elem_of_app, list_elem_of_singleton.
        intros [?|?]; [done|discriminate].
    + unfold merge_left.
      rewrite (proj2 (has_column_true _ _) Hw). simpl. by rewrite Hf.
  - apply IH. apply Exists_cons in Hex as [Hin|?]; [|done].
    apply has_column_false in Hp. done.
Qed.

(** X6. A budget without the column [Fiscal Year]: when it has the column
    [WBS Element] and the column of some period of the range, and the
    expenditure table is typed, the function ends in the catch-all error
    with [Fiscal Year] as the key that was not found. *)
Theorem X6_budget_without_fiscal_year orc gastos ano p_i p_f p :
  gastos_tipados gastos ->
  FISCAL_YEAR ∉ columns orc -> WBS_ELEMENT ∈ columns orc ->
  p_i <= p <= p_f -> target_col p ∈ columns orc ->
  processar_dados_streamlit orc gastos ano p_i p_f
  = UnexpectedError (KeyError FISCAL_YEAR).
Proof.
  intros Hg Hf Hw Hp Hcol. unfold processar_dados_streamlit.
  destruct (gastos_agrupados_total gastos Hg) as [ga ->]. simpl.
  rewrite etapa1_sem_ano; [done| | |].
  - intros [_ ?]%elem_of_columns_drop_unnamed. done.
  - by apply elem_of_columns_drop_unnamed.
  - apply Exists_exists. exists p. split; [by apply elem_of_periodos|].
    apply elem_of_columns_drop_unnamed. split; [|done].
    apply periodo_nao_unnamed, target_col_prefix.
Qed.

(** X6 on a budget without [Fiscal Year]. *)
Lemma X6_budget_without_fiscal_year_witness :
  processar_dados_streamlit orcamento_sem_coluna_ano gastos_exemplo 2026 1 3
  = UnexpectedError (KeyError FISCAL_YEAR).
Proof.
  apply (X6_budget_without_fiscal_year _ _ _ _ _ 1).
  - apply (bool_decide_unpack _). vm_compute. exact I.
  - apply (bool_decide_unpack _). vm_compute. exact I.
  - apply (bool_decide_unpack _). vm_compute. exact I.
  - lia.
  - apply (bool_decide_unpack _). vm_compute. exact I.
Defined.

(** ** Typed tables *)




(** ** The period number in the column name *)

(** X8. The name line 51 builds for a period number is counted as a period
    column by line 67 exactly when the number is not negative. *)
Theorem X8_target_col_is_period_column p :
  re_match_period (target_col p) = true <-> 0 <= p.
Proof.
  split; [|apply re_match_target_col].
  destruct p as [|q|q]; [lia|lia|].
  unfold re_match_period, target_col. rewrite strip_prefix_app.
  simpl. discriminate.
Qed.

(** ** The values of the two totals *)

Lemma transform_sum_inr_valor df key val r v :
  transform_sum df key val r = inr v -> get r key <> NA ->
  exists q, v = Num q /\
    sum_cells ((fun r' => get r' val) <$> grupo df key r) = inr q.
Proof.
  unfold transform_sum.
  destruct (has_column df key); simpl; [|discriminate].
  intros H Hk. apply isna_false in Hk. rewrite Hk in H.
  apply bind_inr in H as (s & Hs & [= <-]). eauto.
Qed.

Lemma mapM_Forall2 {A B} (f : A -> res B) l l' :
  Forall2 (fun a b => f a = inr b) l l' -> mapM f l = inr l'.
Proof.
  induction 1 as [|a b l l' Hab _ IH]; simpl; [done|].
  by rewrite Hab, IH.
Qed.

(** The row totals line 71 stores, read back group by group. *)
Lemma totais_armazenados (f : gmap string cell -> res cell) w
    (l l1 : list (gmap string cell)) :
  Forall2 (fun r r1 => exists v, f r = inr v /\
                                  r1 = <[ORCAMENTO_REAL := v]> r) l l1 ->
  mapM f (filter (fun r => get r WBS_ELEMENT = w) l)
  = inr ((fun r => get r ORCAMENTO_REAL)
           <$> filter (fun r => get r WBS_ELEMENT = w) l1).
Proof.
  induction 1 as [|r r1 l l1 (v & Hv & ->) _ IH]; [done|].
  rewrite !filter_cons. rewrite get_insert_ne by nomes.
  destruct (decide (get r WBS_ELEMENT = w)); [|done].
  rewrite fmap_cons, get_insert_eq. simpl. by rewrite Hv, IH.
Qed.

Lemma mapM_do_grupo (f : gmap string cell -> res cell) (key : string) k
    (l l' : list (gmap string cell)) :
  Forall2 (fun a b => get b key = get a key /\ f b = f a) l l' ->
  mapM f (filter (fun r => get r key = k) l')
  = mapM f (filter (fun r => get r key = k) l).
Proof.
  induction 1 as [|a b l l' [Hk Hf] _ IH]; [done|].
  rewrite !filter_cons, Hk.
  destruct (decide (get a key = k)); [|done].
  simpl. by rewrite Hf, IH.
Qed.

Lemma orcamento_real_por_linha_ext cols (r r' : gmap string cell) :
  (forall c, c ∈ cols -> r' !! c = r !! c) ->
  orcamento_real_por_linha cols r' = orcamento_real_por_linha cols r.
Proof.
  intros H. unfold orcamento_real_por_linha. f_equal. f_equal.
  apply Forall_fmap_ext_1, Forall_forall. intros c Hc.
  by apply get_lookup, H.
Qed.

(** Step 2 with the values it computes, read on the table it starts
    from. *)
Lemma etapa2_Returned_completo df t :
  etapa2 df = Returned t ->
  Forall2 (fun r r' => exists v ta to m,
             r' = linha_etapa2 v ta to m r /\
             (get r WBS_ELEMENT = NA -> ta = NA /\ to = NA /\ m = NA) /\
             (get r WBS_ELEMENT <> NA ->
              exists a b vs,
                ta = Num a /\ to = Num b /\
                sum_cells (totais_do_projeto df (get r WBS_ELEMENT)) = inr b /\
                realizado_do_projeto df (get r WBS_ELEMENT) = inr vs /\
                sum_cells vs = inr a /\
                max_cells (anos_do_projeto df (get r WBS_ELEMENT)) = inr m))
          (rows df) (rows t).
Proof.
  unfold etapa2. destruct (colunas_periodo df) as [|c0 cs] eqn:Hcols;
    [discriminate|].
  intros H.
  match type of H with outcome_of ?x = _ => destruct x as [e|o] eqn:Hin end;
    simpl in H; [discriminate|]. subst o.
  apply bind_inr in Hin as (df1 & H1 & Hin).
  apply bind_inr in Hin as (df2 & H2 & Hin).
  destruct (has_column df2 TOTAL) eqn:Htot; simpl in Hin; [|discriminate].
  apply bind_inr in Hin as (df3 & H3 & Hin).
  apply bind_inr in Hin as (df5 & H5 & Hin).
  injection Hin as <-.
  apply assign_res_inr in H1 as [F1 _].
  apply assign_res_inr in H2 as [F2 _].
  apply assign_res_inr in H3 as [F3 _].
  apply mascarar_linhas_inr in H5 as [F5 _]. simpl in F5.
  (* the rows of line 72 keep the project code and the total of the input *)
  assert (Forall2 (fun a b => get b WBS_ELEMENT = get a WBS_ELEMENT /\
                              get b TOTAL = get a TOTAL)
                  (rows df) (rows df2)) as Hk2.
  { pose proof (Forall2_comp _ _ _ _ _ F1 F2) as F.
    eapply Forall2_impl; [exact F|]. simpl.
    intros r r2 (r1 & (v & _ & ->) & (ta & _ & ->)).
    by rewrite !get_insert_ne by nomes. }
  pose proof (Forall2_comp _ _ _ _ _ (Forall2_comp _ _ _ _ _ F1 F2) F3) as F03.
  (* the rows of line 77 keep the project code and the year of the input *)
  assert (Forall2 (fun a b => get b WBS_ELEMENT = get a WBS_ELEMENT /\
                              get b FISCAL_YEAR = get a FISCAL_YEAR)
            (rows df)
            (rows (assign SALDO (fun r => sub_cells (get r TOTAL_ORCADO)
                                            (get r TOTAL_ACUMULADO)) df3)))
    as Hk4.
  { simpl. apply Forall2_fmap_r. eapply Forall2_impl; [exact F03|]. simpl.
    intros r r3 (r2 & (r1 & (v & _ & ->) & (ta & _ & ->)) & (to & _ & ->)).
    by rewrite !get_insert_ne by nomes. }
  apply Forall2_fmap_l in F5.
  pose proof (Forall2_comp _ _ _ _ _ F03 F5) as F. clear F03 F5.
  simpl. apply Forall2_fmap_r.
  eapply Forall2_impl; [exact F|]. simpl.
  intros r r5 (r3 & (r2 & (r1 & (v & Hv & ->) & (ta & Hta & ->))
                     & (to & Hto & ->)) & (m & Hm & ->)).
  rewrite get_insert_eq in Hm. rewrite get_insert_ne in Hm by nomes.
  rewrite get_insert_eq in Hm.
  rewrite get_insert_eq. rewrite get_insert_ne by nomes.
  rewrite get_insert_eq.
  apply transform_max_inr in Hm.
  rewrite !get_insert_ne in Hm by nomes.
  exists v, ta, to, m. split; [done|]. split.
  { intros Hw.
    apply transform_sum_inr in Hta as [_ Hta].
    apply transform_sum_inr in Hto as [_ Hto].
    rewrite !get_insert_ne in Hta by nomes.
    rewrite !get_insert_ne in Hto by nomes.
    rewrite Hw in Hta, Hto, Hm. done. }
  intros Hw.
  apply transform_sum_inr_valor in Hta as (a & -> & Ha);
    [|by rewrite get_insert_ne by nomes].
  apply transform_sum_inr_valor in Hto as (b & -> & Hb);
    [|by rewrite !get_insert_ne by nomes].
  unfold grupo in Ha, Hb, Hm.
  rewrite !get_insert_ne in Ha by nomes.
  rewrite !get_insert_ne in Hb by nomes.
  rewrite !get_insert_ne in Hm by nomes.
  rewrite (proj2 (isna_false _) Hw) in Hm.
  exists a, b, ((fun r => get r ORCAMENTO_REAL)
                  <$> filter (fun r' => get r' WBS_ELEMENT = get r WBS_ELEMENT)
                             (rows df1)).
  split; [done|]. split; [done|]. split; [|split; [|split; [done|]]].
  - rewrite <- Hb. f_equal. unfold totais_do_projeto, linhas_do_projeto.
    symmetry. apply (valores_do_grupo WBS_ELEMENT TOTAL _ _ _ Hk2).
  - unfold realizado_do_projeto, linhas_do_projeto. rewrite Hcols.
    by apply totais_armazenados.
  - rewrite <- Hm. f_equal. unfold anos_do_projeto.
    symmetry. apply (valores_do_grupo WBS_ELEMENT FISCAL_YEAR _ _ _ Hk4).
Qed.


Lemma filter_periodo_com_coluna c cols :
  re_match_period c = false ->
  filter (fun c => re_match_period c = true) (com_coluna c cols)
  = filter (fun c => re_match_period c = true) cols.
Proof.
  intros Hc. unfold com_coluna. case_bool_decide; [done|].
  rewrite filter_app, filter_cons_False, filter_nil, app_nil_r; [done|].
  by rewrite Hc.
Qed.

Lemma colunas_periodo_Returned df t :
  etapa2 df = Returned t -> colunas_periodo t = colunas_periodo df.
Proof.
  intros H. unfold colunas_periodo.
  rewrite (etapa2_Returned_columns _ _ H). f_equal. unfold colunas_finais.
  rewrite list_filter_filter.
  rewrite (list_filter_iff _ (fun c => re_match_period c = true)).
  - by rewrite !filter_periodo_com_coluna.
  - intros c. split; [by intros [? _]|]. intros Hm. split; [done|].
    intros ->. discriminate Hm.
Qed.


Lemma total_fora_da_etapa2 : TOTAL ∉ colunas_etapa2.
Proof.
  unfold colunas_etapa2. rewrite !not_elem_of_cons.
  repeat split; try nomes. apply not_elem_of_nil.
Qed.







(** ** The rounding of the merged amounts *)






Example empate_para_o_par :
  linha_de tabela_variados 1 !! "Period 1" = Some (Num (zq 2)) /\
  linha_de tabela_variados 1 !! "Period 2" = Some (Num (zq 11)).
Proof. split; reflexivity. Qed.

(** ** The expenditures the loop does not look up *)

Lemma etapa1_ext ga ga' ano ps df :
  (forall p, p ∈ ps ->
             gastos_do_periodo ga ano p = gastos_do_periodo ga' ano p) ->
  etapa1 ga ano ps df = etapa1 ga' ano ps df.
Proof.
  revert df. induction ps as [|p ps IH]; simpl; intros df H; [done|].
  assert (atualizar_periodo ga ano df p = atualizar_periodo ga' ano df p)
    as ->.
  { unfold atualizar_periodo. rewrite (H p) by left. done. }
  destruct (atualizar_periodo ga' ano df p); simpl; [done|].
  apply IH. intros q Hq. apply H. by right.
Qed.

Lemma remove_dups_filter {A} `{EqDecision A} (P : A -> Prop)
    `{!forall x, Decision (P x)} (l : list A) :
  filter P (remove_dups l) = remove_dups (filter P l).
Proof.
  induction l as [|x l IH]; [done|]. simpl.
  destruct (decide (P x)) as [HP|HP].
  - rewrite (filter_cons_True _ x l) by done. simpl.
    destruct (decide_rel elem_of x l) as [Hin|Hin];
      destruct (decide_rel elem_of x (filter P l)) as [Hin'|Hin'].
    + done.
    + destruct Hin'. by apply list_elem_of_filter.
    + by apply list_elem_of_filter in Hin' as [_ ?].
    + by rewrite filter_cons_True, IH.
  - rewrite (filter_cons_False _ x l) by done.
    destruct (decide_rel elem_of x l); [done|].
    by rewrite filter_cons_False.
Qed.

Lemma fmap_filter_comp {A B} (f : A -> B) (Q : B -> Prop)
    `{!forall y, Decision (Q y)} (l : list A) :
  f <$> filter (fun x => Q (f x)) l = filter Q (f <$> l).
Proof.
  induction l as [|x l IH]; [done|].
  rewrite fmap_cons, !filter_cons.
  destruct (decide (Q (f x))); by rewrite ?fmap_cons, IH.
Qed.

Lemma fmap_filter_comm {A} (f : A -> A) (P : A -> Prop)
    `{!forall x, Decision (P x)} (l : list A) :
  (forall x, P (f x) <-> P x) ->
  f <$> filter P l = filter P (f <$> l).
Proof.
  intros Hf. induction l as [|x l IH]; [done|].
  rewrite fmap_cons, !filter_cons.
  destruct (decide (P x)) as [HP|HP], (decide (P (f x))) as [HP'|HP'].
  - by rewrite fmap_cons, IH.
  - destruct HP'. by apply Hf.
  - destruct HP. by apply Hf.
  - done.
Qed.

Lemma listas_determinadas {K V} (F : K -> res V) (l1 l2 : list (K * V)) :
  fst <$> l1 = fst <$> l2 ->
  Forall (fun g => F g.1 = inr g.2) l1 ->
  Forall (fun g => F g.1 = inr g.2) l2 ->
  l1 = l2.
Proof.
  revert l2. induction l1 as [|[k v] l1 IH]; intros [|[k' v'] l2] Hk H1 H2;
    try done.
  injection Hk as -> Hk.
  apply Forall_cons in H1 as [E1 H1]. apply Forall_cons in H2 as [E2 H2].
  simpl in E1, E2. rewrite E1 in E2. injection E2 as ->.
  f_equal. by apply IH.
Qed.

Lemma filter_dispensavel {A} (P V R : A -> Prop)
    `{!forall x, Decision (P x)} `{!forall x, Decision (V x)}
    `{!forall x, Decision (R x)} (l : list A) :
  (forall x, P x -> R x) ->
  filter P (filter V (filter R l)) = filter P (filter V l).
Proof.
  intros HPR. induction l as [|x l IH]; [done|].
  destruct (decide (R x)) as [HR|HR].
  - rewrite (filter_cons_True R) by done.
    destruct (decide (V x)) as [HV|HV].
    + rewrite !(filter_cons_True V) by done.
      destruct (decide (P x)) as [HP|HP].
      * rewrite !(filter_cons_True P) by done. by rewrite IH.
      * by rewrite !(filter_cons_False P) by done.
    + by rewrite !(filter_cons_False V) by done.
  - rewrite (filter_cons_False R) by done. rewrite IH.
    destruct (decide (V x)) as [HV|HV].
    + rewrite (filter_cons_True V) by done.
      rewrite (filter_cons_False P); [done|]. intros HP. by apply HR, HPR.
    + by rewrite (filter_cons_False V) by done.
Qed.

Lemma chave_relevante ano p_i p_f p (e : gmap string cell) :
  p_i <= p <= p_f ->
  eq_int (chave_de e).2 p && eq_int (chave_de e).1.1 ano = true ->
  gasto_relevante ano p_i p_f e.
Proof.
  intros Hp [H1 H2]%andb_prop. split; [done|].
  apply Exists_exists. exists p. split; [|done]. by apply elem_of_periodos.
Qed.

Lemma valores_de_relevantes df ano p_i p_f p k :
  p_i <= p <= p_f ->
  eq_int k.2 p && eq_int k.1.1 ano = true ->
  valores_de (gastos_relevantes ano p_i p_f df) k = valores_de df k.
Proof.
  intros Hp Hk. unfold valores_de, linhas_validas. simpl. f_equal.
  apply filter_dispensavel. intros e <-. by eapply chave_relevante.
Qed.

Lemma chaves_do_periodo df ga ano p :
  gastos_agrupados df = inr ga ->
  fst <$> gastos_do_periodo ga ano p
  = remove_dups
      (chave_de <$>
         filter (fun e => eq_int (chave_de e).2 p
                          && eq_int (chave_de e).1.1 ano = true)
                (linhas_validas df)).
Proof.
  intros [Hk _]%gastos_agrupados_inr. unfold gastos_do_periodo.
  transitivity
    (filter (fun k : chave => eq_int k.2 p && eq_int k.1.1 ano = true)
            (fst <$> ga)).
  { exact (fmap_filter_comp fst
             (fun k : chave => eq_int k.2 p && eq_int k.1.1 ano = true) ga). }
  rewrite Hk, remove_dups_filter. f_equal. symmetry.
  exact (fmap_filter_comp chave_de
           (fun k : chave => eq_int k.2 p && eq_int k.1.1 ano = true) _).
Qed.

Lemma gastos_do_periodo_relevantes df ga ga' ano p_i p_f p :
  gastos_agrupados df = inr ga ->
  gastos_agrupados (gastos_relevantes ano p_i p_f df) = inr ga' ->
  p_i <= p <= p_f ->
  gastos_do_periodo ga' ano p = gastos_do_periodo ga ano p.
Proof.
  intros Hga Hga' Hp.
  apply (listas_determinadas (fun k => sum_cells (valores_de df k))).
  - rewrite (chaves_do_periodo _ _ _ _ Hga), (chaves_do_periodo _ _ _ _ Hga').
    do 2 f_equal. unfold linhas_validas. simpl.
    apply filter_dispensavel. intros e. by apply chave_relevante.
  - apply gastos_agrupados_inr in Hga' as [_ Hs].
    apply Forall_forall. intros g [Hg Hin]%list_elem_of_filter.
    rewrite <- (valores_de_relevantes df ano p_i p_f p) by done.
    clear Hg. revert g Hin. by apply Forall_forall.
  - apply gastos_agrupados_inr in Hga as [_ Hs].
    apply Forall_forall. intros g [_ Hin]%list_elem_of_filter.
    revert g Hin. by apply Forall_forall.
Qed.

Lemma gasto_relevante_sem_unnamed ano p_i p_f (e : gmap string cell) :
  gasto_relevante ano p_i p_f
    (filter (fun kv : string * cell => unnamed kv.1 = false) e)
  <-> gasto_relevante ano p_i p_f e.
Proof.
  unfold gasto_relevante.
  by rewrite !get_sem_unnamed by reflexivity.
Qed.

Lemma drop_unnamed_relevantes ano p_i p_f df :
  drop_unnamed (gastos_relevantes ano p_i p_f df)
  = gastos_relevantes ano p_i p_f (drop_unnamed df).
Proof.
  unfold drop_unnamed, gastos_relevantes. simpl. f_equal.
  apply fmap_filter_comm. apply gasto_relevante_sem_unnamed.
Qed.

Lemma gastos_relevantes_tipados ano p_i p_f df :
  gastos_tipados df -> gastos_tipados (gastos_relevantes ano p_i p_f df).
Proof.
  intros (Hf & Hw & Hp & Hv & Hnum). repeat split; try done. simpl.
  apply Forall_forall. intros e [_ He]%list_elem_of_filter.
  revert e He. by apply Forall_forall.
Qed.

(** X12. With numeric amounts, the expenditure rows of other years and of
    periods outside the range make no difference: the function gives the
    same outcome without them (the filters of lines 54 and 61 see only the
    groups of the year and of a period of the loop). *)
Theorem X12_other_expenditures_ignored orc gastos ano p_i p_f :
  gastos_tipados gastos ->
  processar_dados_streamlit orc (gastos_relevantes ano p_i p_f gastos)
    ano p_i p_f
  = processar_dados_streamlit orc gastos ano p_i p_f.
Proof.
  intros Ht.
  destruct (gastos_agrupados_total gastos Ht) as [ga Hga].
  destruct (gastos_agrupados_total _
              (gastos_relevantes_tipados ano p_i p_f _ Ht)) as [ga' Hga'].
  unfold processar_dados_streamlit. rewrite Hga, Hga'. simpl.
  rewrite drop_unnamed_relevantes in Hga'.
  rewrite (etapa1_ext ga' ga); [done|].
  intros p Hp%elem_of_periodos.
  by eapply gastos_do_periodo_relevantes.
Qed.

(** X12 on expenditures of two years and four periods, two of which
    remain. *)
Lemma X12_other_expenditures_ignored_witness :
  length (rows (gastos_relevantes 2026 1 3 gastos_variados)) = 2%nat /\
  processar_dados_streamlit orcamento_ex
    (gastos_relevantes 2026 1 3 gastos_variados) 2026 1 3
  = processar_dados_streamlit orcamento_ex gastos_variados 2026 1 3.
Proof.
  split; [reflexivity|].
  apply X12_other_expenditures_ignored.
  apply (bool_decide_unpack _). vm_compute. exact I.
Defined.

(** ** The function on a table it returned *)

Lemma drop_unnamed_id t :
  Forall (fun c => unnamed c = false) (columns t) ->
  (forall (r : gmap string cell) c,
      r ∈ rows t -> unnamed c = true -> r !! c = None) ->
  drop_unnamed t = t.
Proof.
  destruct t as [cols rs]. unfold drop_unnamed. simpl. intros Hc Hr. f_equal.
  - by apply filter_todos.
  - transitivity (id <$> rs); [|apply list_fmap_id].
    apply list_fmap_ext. intros i r Hi. simpl.
    apply list_elem_of_lookup_2 in Hi.
    apply map_eq. intros c. destruct (unnamed c) eqn:Hu.
    + rewrite (Hr r c Hi Hu). apply map_lookup_filter_None_2. right.
      intros v _. simpl. by rewrite Hu.
    + by apply lookup_sem_unnamed.
Qed.

Lemma temp_fora_da_etapa2 : coluna_gasto_temp ∉ colunas_etapa2.
Proof.
  unfold colunas_etapa2. rewrite !not_elem_of_cons.
  repeat split; try nomes. apply not_elem_of_nil.
Qed.

Lemma com_coluna_velha c cols : c ∈ cols -> com_coluna c cols = cols.
Proof. intros H. unfold com_coluna. by rewrite bool_decide_eq_true_2. Qed.

Lemma colunas_finais_idemp cols :
  colunas_finais (colunas_finais cols) = colunas_finais cols.
Proof.
  set (k := colunas_finais cols).
  assert (TOTAL_ACUMULADO ∈ k /\ TOTAL_ORCADO ∈ k /\ SALDO ∈ k
          /\ ORCAMENTO_REAL ∉ k) as (Ha & Hb & Hs & Ho).
  { unfold k. rewrite !elem_of_colunas_finais.
    repeat split; try nomes; auto. by intros [? _]. }
  unfold colunas_finais at 1. fold k.
  rewrite (com_coluna_nova ORCAMENTO_REAL) by done.
  rewrite (com_coluna_velha TOTAL_ACUMULADO) by (apply elem_of_app; auto).
  rewrite (com_coluna_velha TOTAL_ORCADO) by (apply elem_of_app; auto).
  rewrite (com_coluna_velha SALDO) by (apply elem_of_app; auto).
  rewrite filter_app, filter_cons_False by (intros E; by apply E).
  rewrite filter_nil, app_nil_r.
  apply filter_todos, Forall_forall. by intros c Hc ->.
Qed.

Lemma DataFrame_eq (a b : DataFrame) :
  columns a = columns b -> rows a = rows b -> a = b.
Proof. destruct a, b. simpl. by intros -> ->. Qed.

(** The cells step 2 reads are numeric in a table returned for a typed
    budget. *)
Lemma linhas_devolvidas_numericas orc gastos ano p_i p_f t :
  orcamento_tipado orc ->
  devolve (processar_dados_streamlit orc gastos ano p_i p_f) t ->
  Forall (fun r => numerica (get r FISCAL_YEAR) = true /\
                   numerica (get r TOTAL) = true /\
                   Forall (fun c => numerica (get r c) = true)
                          (colunas_periodo t)) (rows t).
Proof.
  intros (_ & _ & _ & Hn) Hd.
  pose proof (processar_devolve _ _ _ _ _ _ Hd) as (ga & _ & F).
  destruct chaves_fora_da_etapa2 as [_ Hkf].
  apply Forall_forall. intros r' Hr'.
  apply list_elem_of_lookup in Hr' as [i Hi].
  destruct (Forall2_lookup_r _ _ _ _ _ F Hi) as (r0 & Hr0 & Hc).
  simpl in Hr0. rewrite list_lookup_fmap in Hr0.
  destruct (rows orc !! i) as [r00|] eqn:Hi0; [|discriminate].
  injection Hr0 as <-.
  rewrite Forall_forall in Hn.
  destruct (Hn r00 (list_elem_of_lookup_2 _ _ _ Hi0)) as (Hy & Htot & Hper).
  assert (forall c, c ∉ colunas_etapa2 -> c <> coluna_gasto_temp ->
                    unnamed c = false -> numerica (get r00 c) = true ->
                    numerica (get r' c) = true) as Hnum.
  { intros c Hc2 Hct Hcu Hcn. rewrite (get_lookup _ _ _ (Hc c Hc2)).
    apply numerica_linha_etapa1; [done|]. by rewrite get_sem_unnamed. }
  split; [|split].
  - apply Hnum; try done; nomes.
  - apply Hnum; try done; try nomes. apply total_fora_da_etapa2.
  - apply Forall_forall. intros c Hcp.
    apply elem_of_colunas_periodo in Hcp as [Hin Hm].
    pose proof (re_match_prefix c Hm) as Hpre.
    apply Hnum.
    + by apply periodo_fora_da_etapa2.
    + outro_nome.
    + by apply periodo_nao_unnamed.
    + rewrite Forall_forall in Hper. apply Hper; [|done].
      destruct (columns_devolve _ _ _ _ _ _ _ Hd Hin) as [Hx|[->|[->| ->]]];
        try discriminate Hm.
      by apply elem_of_columns_drop_unnamed in Hx as [_ ?].
Qed.

(** ** The update done in two runs *)

Lemma lookup_linha_etapa1_fora ga ano cols ps (r : gmap string cell) c :
  c <> coluna_gasto_temp ->
  (forall p, p ∈ ps -> target_col p ∈ cols -> c <> target_col p) ->
  linha_etapa1 ga ano cols ps r !! c = r !! c.
Proof.
  intros Hc. revert r. induction ps as [|q ps IH]; simpl; intros r Hps; [done|].
  rewrite IH by (intros p Hp; apply Hps; by right).
  case_bool_decide as Hq; [|done].
  apply lookup_linha_periodo_ne; [done|]. apply Hps; [by left|done].
Qed.

Lemma linha_etapa1_sem ga ano cols ps (r : gmap string cell) :
  ~ Exists (fun p => target_col p ∈ cols) ps ->
  linha_etapa1 ga ano cols ps r = r.
Proof.
  induction ps as [|q ps IH]; simpl; intros H; [done|].
  rewrite bool_decide_eq_false_2 by (intros Hq; apply H; by left).
  apply IH. intros Hex. apply H. by right.
Qed.

(** The loop over one list of periods and then over another, seen on the
    columns [Pc] of one row, is the loop over any list that holds the
    periods of both. *)
Lemma linha_etapa1_duas_vezes ga ano cols cols' ps1 qs ps
    (Pc : string -> Prop) (r0 x : gmap string cell) :
  (forall p, target_col p ∈ cols' <-> target_col p ∈ cols) ->
  (forall p, p ∈ ps <-> p ∈ ps1 \/ p ∈ qs) ->
  Pc coluna_gasto_temp -> Pc WBS_ELEMENT -> Pc FISCAL_YEAR ->
  (forall p, Pc (target_col p)) ->
  (forall c, Pc c -> x !! c = linha_etapa1 ga ano cols ps1 r0 !! c) ->
  forall c, Pc c ->
    linha_etapa1 ga ano cols' qs x !! c = linha_etapa1 ga ano cols ps r0 !! c.
Proof.
  intros Hcols Hps Pt Pw Pf Pp Hx c Hc.
  assert (get x WBS_ELEMENT = get r0 WBS_ELEMENT) as Hw.
  { apply get_lookup. rewrite Hx by done.
    apply lookup_linha_etapa1_ne; [nomes|]. intros; outro_nome. }
  assert (get x FISCAL_YEAR = get r0 FISCAL_YEAR) as Hf.
  { apply get_lookup. rewrite Hx by done.
    apply lookup_linha_etapa1_ne; [nomes|]. intros; outro_nome. }
  destruct (decide (c = coluna_gasto_temp)) as [->|Hct].
  - destruct (decide (Exists (fun p => target_col p ∈ cols) ps)) as [He|He].
    + rewrite (lookup_linha_etapa1_temp ga ano cols ps r0 He).
      apply Exists_exists in He as (p & Hp & Hin).
      apply Hps in Hp as [Hp|Hp].
      * destruct (decide (Exists (fun p => target_col p ∈ cols') qs))
          as [Hq|Hq].
        -- by apply lookup_linha_etapa1_temp.
        -- rewrite (linha_etapa1_sem _ _ _ _ _ Hq). rewrite Hx by done.
           apply lookup_linha_etapa1_temp. apply Exists_exists. eauto.
      * apply lookup_linha_etapa1_temp. apply Exists_exists.
        exists p. split; [done|]. by apply Hcols.
    + rewrite (linha_etapa1_sem ga ano cols ps r0 He).
      rewrite linha_etapa1_sem.
      * rewrite Hx by done. rewrite linha_etapa1_sem; [done|].
        intros (p & Hp & Hin)%Exists_exists. apply He, Exists_exists.
        exists p. split; [|done]. apply Hps. by left.
      * intros (p & Hp & Hin)%Exists_exists. apply He, Exists_exists.
        exists p. split; [|by apply Hcols]. apply Hps. by right.
  - destruct (eq_int (get r0 FISCAL_YEAR) ano) eqn:Hano.
    + destruct (decide (Exists (fun p => c = target_col p
                                         /\ target_col p ∈ cols) ps))
        as [He|He].
      * apply Exists_exists in He as (p & Hp & -> & Hin).
        rewrite (lookup_linha_etapa1_periodo ga ano cols ps r0 p Hano Hp Hin).
        destruct (decide (p ∈ qs)) as [Hq|Hq].
        -- rewrite lookup_linha_etapa1_periodo;
             [|by rewrite Hf|done|by apply Hcols].
           unfold valor_periodo. do 2 f_equal. by apply junta_chaves.
        -- rewrite lookup_linha_etapa1_fora; [|done|].
           ++ rewrite Hx by done.
              apply lookup_linha_etapa1_periodo; [done| |done].
              by apply Hps in Hp as [?|?].
           ++ intros q Hqin _ E. apply target_col_inj in E. by subst.
      * assert (forall p, p ∈ ps -> target_col p ∈ cols -> c <> target_col p)
          as Hfora.
        { intros p Hp Hin ->. apply He, Exists_exists. eauto. }
        rewrite (lookup_linha_etapa1_fora ga ano cols ps r0 c Hct Hfora).
        rewrite lookup_linha_etapa1_fora; [|done|].
        -- rewrite Hx by done. apply lookup_linha_etapa1_fora; [done|].
           intros q Hq Hin. apply Hfora; [|done]. apply Hps. by left.
        -- intros q Hq Hin. apply Hfora; [|by apply Hcols].
           apply Hps. by right.
    + rewrite lookup_linha_etapa1_outro_ano by (done || by rewrite Hf).
      rewrite Hx by done. by rewrite !lookup_linha_etapa1_outro_ano by done.
Qed.

Lemma linha_etapa2_congruente v v' ta to m (r r' : gmap string cell) :
  (forall c, c ∉ colunas_etapa2 -> r' !! c = r !! c) ->
  linha_etapa2 v' ta to m r' = linha_etapa2 v ta to m r.
Proof.
  intros Hag. destruct chaves_fora_da_etapa2 as [_ Hkf].
  pose proof (derivados_linha_etapa2 v' ta to m r') as H2.
  pose proof (derivados_linha_etapa2 v ta to m r) as H1.
  simpl in H1, H2. rewrite (get_lookup _ _ _ (Hag _ Hkf)) in H2.
  apply map_eq. intros c.
  destruct (decide (c = ORCAMENTO_REAL)) as [->|Ho].
  { unfold linha_etapa2. by rewrite !lookup_delete_eq. }
  destruct (decide (c = TOTAL_ACUMULADO)) as [->|Ha].
  { destruct (lt_cells _ _); destruct H1 as (_ & -> & _);
      by destruct H2 as (_ & -> & _). }
  destruct (decide (c = TOTAL_ORCADO)) as [->|Hb].
  { destruct (lt_cells _ _); destruct H1 as (-> & _);
      by destruct H2 as (-> & _). }
  destruct (decide (c = SALDO)) as [->|Hs].
  { destruct (lt_cells _ _); destruct H1 as (_ & _ & ->);
      by destruct H2 as (_ & _ & ->). }
  assert (c ∉ colunas_etapa2) as Hc.
  { unfold colunas_etapa2. rewrite !not_elem_of_cons.
    repeat split; try done. apply not_elem_of_nil. }
  rewrite !lookup_linha_etapa2_ne by done. by apply Hag.
Qed.

Lemma Forall2_quadrado {A} (R P Q : A -> A -> Prop) (l l' k k' : list A) :
  Forall2 R l l' -> Forall2 P l k -> Forall2 Q l' k' ->
  (forall x x' y y', R x x' -> P x y -> Q x' y' -> y' = y) -> k' = k.
Proof.
  intros HR. revert k k'.
  induction HR as [|x x' l l' Hx _ IH]; intros k k' HP HQ Hfix;
    inversion HP as [|? y ? k0 Hy HP']; subst;
    inversion HQ as [|? y' ? k0' Hy' HQ']; subst; [done|].
  f_equal; [by eapply Hfix | by apply IH].
Qed.

(** Step 2 reads its table only outside the columns it writes. *)
Lemma etapa2_congruente df df' t t' :
  etapa2 df = Returned t -> etapa2 df' = Returned t' ->
  colunas_finais (columns df') = colunas_finais (columns df) ->
  colunas_periodo df' = colunas_periodo df ->
  Forall2 (fun r r' => forall c, c ∉ colunas_etapa2 -> r' !! c = r !! c)
          (rows df) (rows df') ->
  t' = t.
Proof.
  intros H H' Hcf Hcp Hag.
  destruct chaves_fora_da_etapa2 as [Hkw Hkf].
  assert (forall w, totais_do_projeto df' w = totais_do_projeto df w) as Htot.
  { intros w. unfold totais_do_projeto, linhas_do_projeto.
    apply (valores_do_grupo WBS_ELEMENT TOTAL).
    eapply Forall2_impl; [exact Hag|]. simpl. intros r r' Hc.
    split; apply get_lookup, Hc; [done|apply total_fora_da_etapa2]. }
  assert (forall w, anos_do_projeto df' w = anos_do_projeto df w) as Hanos.
  { intros w. unfold anos_do_projeto.
    apply (valores_do_grupo WBS_ELEMENT FISCAL_YEAR).
    eapply Forall2_impl; [exact Hag|]. simpl. intros r r' Hc.
    split; by apply get_lookup, Hc. }
  assert (forall w, realizado_do_projeto df' w = realizado_do_projeto df w)
    as Hreal.
  { intros w. unfold realizado_do_projeto, linhas_do_projeto. rewrite Hcp.
    apply mapM_do_grupo.
    eapply Forall2_impl; [exact Hag|]. simpl. intros r r' Hc.
    split; [by apply get_lookup, Hc|].
    apply orcamento_real_por_linha_ext. intros c Hin.
    apply elem_of_colunas_periodo in Hin as [_ Hm].
    by apply Hc, periodo_fora_da_etapa2, re_match_prefix. }
  apply DataFrame_eq.
  { by rewrite (etapa2_Returned_columns _ _ H),
               (etapa2_Returned_columns _ _ H'). }
  apply (Forall2_quadrado _ _ _ _ _ _ _ Hag
           (etapa2_Returned_completo _ _ H)
           (etapa2_Returned_completo _ _ H')).
  intros r r' y y' Hc (v & ta & to & m & -> & Hna & Hval)
         (v' & ta' & to' & m' & -> & Hna' & Hval').
  rewrite (get_lookup _ _ _ (Hc _ Hkw)) in Hna', Hval'.
  rewrite Htot, Hreal, Hanos in Hval'.
  destruct (decide (get r WBS_ELEMENT = NA)) as [Hw|Hw].
  - destruct (Hna Hw) as (-> & -> & ->).
    destruct (Hna' Hw) as (-> & -> & ->).
    by apply linha_etapa2_congruente.
  - destruct (Hval Hw) as (a & b & vs & -> & -> & Hb & Hvs & Ha & Hm).
    destruct (Hval' Hw)
      as (a' & b' & vs' & -> & -> & Hb' & Hvs' & Ha' & Hm').
    rewrite Hb in Hb'. injection Hb' as <-.
    rewrite Hvs in Hvs'. injection Hvs' as <-.
    rewrite Ha in Ha'. injection Ha' as <-.
    rewrite Hm in Hm'. injection Hm' as <-.
    by apply linha_etapa2_congruente.
Qed.

Lemma colunas_periodo_columns df df' :
  columns df' = columns df -> colunas_periodo df' = colunas_periodo df.
Proof. unfold colunas_periodo. by intros ->. Qed.

(** The loop keeps the cells step 2 reads numeric. *)
Lemma etapa1_legivel ga ano ps df df' :
  NoDup (fst <$> ga) ->
  etapa1 ga ano ps df = inr df' -> columns df' = columns df ->
  Forall (linha_legivel df) (rows df) ->
  Forall (linha_legivel df') (rows df').
Proof.
  intros Hnd H Hc Hn. apply etapa1_inr in H as [-> _]; [|done].
  apply Forall_fmap. eapply Forall_impl; [exact Hn|]. simpl.
  intros r (Hy & Htot & Hper). unfold linha_legivel.
  rewrite (colunas_periodo_columns _ _ Hc).
  split; [|split].
  - apply numerica_linha_etapa1; [nomes|done].
  - apply numerica_linha_etapa1; [nomes|done].
  - rewrite Forall_forall in Hper. apply Forall_forall. intros c Hin.
    pose proof (Hper c Hin) as Hnc.
    apply elem_of_colunas_periodo in Hin as [_ Hm].
    pose proof (re_match_prefix c Hm) as Hpre.
    apply numerica_linha_etapa1; [outro_nome|done].
Qed.

Lemma orcamento_limpo_legivel orc :
  orcamento_tipado orc ->
  Forall (linha_legivel (drop_unnamed orc)) (rows (drop_unnamed orc)).
Proof.
  intros (_ & _ & _ & Hn). simpl. apply Forall_fmap.
  eapply Forall_impl; [exact Hn|]. simpl. intros r (Hy & Htot & Hper).
  split; [|split].
  - by rewrite get_sem_unnamed.
  - by rewrite get_sem_unnamed.
  - apply Forall_forall. intros c Hin.
    apply elem_of_colunas_periodo in Hin as [Hin Hm].
    apply elem_of_columns_drop_unnamed in Hin as [Hu Hin].
    rewrite get_sem_unnamed by done.
    rewrite Forall_forall in Hper. by apply Hper.
Qed.

(** Two runs in a row: the second one, on the table the first one returned
    for a typed budget, has the outcome of one run on the budget over any
    range that holds exactly the periods of both. *)
Lemma processar_em_duas_vezes orc gastos ano p_i p_f q_i q_f r_i r_f t :
  orcamento_tipado orc ->
  devolve (processar_dados_streamlit orc gastos ano p_i p_f) t ->
  (forall p, r_i <= p <= r_f <-> p_i <= p <= p_f \/ q_i <= p <= q_f) ->
  processar_dados_streamlit t gastos ano q_i q_f
  = processar_dados_streamlit orc gastos ano r_i r_f.
Proof.
  intros Htip Hd Hr.
  pose proof (linhas_devolvidas_numericas _ _ _ _ _ _ Htip Hd) as Hnum.
  pose proof (orcamento_limpo_legivel _ Htip) as Hnum0.
  pose proof (colunas_sem_unnamed _ _ _ _ _ _ Hd) as Hcu.
  pose proof (drop_unnamed_id t Hcu
                (fun r c => celulas_sem_unnamed _ _ _ _ _ _ r c Hd)) as Hlimpa.
  pose proof (processar_devolve _ _ _ _ _ _ Hd) as (ga0 & Hga0 & F).
  destruct Htip as (Hw & Hf & Ht & _).
  destruct (processar_inv orc gastos ano p_i p_f _ eq_refl)
    as [[e He]|(ga & df1 & Hga & Hdf1 & Ho)].
  { rewrite He in Hd. destruct Hd; discriminate. }
  rewrite Hga in Hga0. injection Hga0 as <-.
  rewrite <- Ho in Hd. clear Ho.
  pose proof (gastos_agrupados_NoDup _ _ Hga) as Hnd.
  unfold processar_dados_streamlit. rewrite Hlimpa, Hga. simpl.
  set (df0 := drop_unnamed orc) in *.
  assert (WBS_ELEMENT ∈ columns df0) as Hw0
    by by apply elem_of_columns_drop_unnamed.
  assert (FISCAL_YEAR ∈ columns df0) as Hf0
    by by apply elem_of_columns_drop_unnamed.
  assert (coluna_gasto_temp ∉ columns df0) as Ht0
    by by intros [_ ?]%elem_of_columns_drop_unnamed.
  (* the first run *)
  destruct (etapa1_total ga ano (periodos p_i p_f) df0 Hnd Hw0 Hf0 Ht0)
    as (df' & Hdf' & Hc1).
  rewrite Hdf1 in Hdf'. injection Hdf' as <-.
  apply etapa1_inr in Hdf1 as [Hr1 _]; [|done].
  (* one run over the whole range *)
  destruct (etapa1_total ga ano (periodos r_i r_f) df0 Hnd Hw0 Hf0 Ht0)
    as (df2 & Hdf2 & Hc2).
  rewrite Hdf2. simpl.
  pose proof (etapa1_legivel _ _ _ _ _ Hnd Hdf2 Hc2 Hnum0) as Hnum2.
  apply etapa1_inr in Hdf2 as [Hr2 _]; [|done].
  (* the second run *)
  destruct chaves_fora_da_etapa2 as [Hkw Hkf].
  assert (forall c, c ∉ colunas_etapa2 ->
                    c ∈ columns t <-> c ∈ columns df0) as Hct.
  { intros c Hc. rewrite <- Hc1. destruct Hd as [Hd|Hd].
    - rewrite (etapa2_Returned_columns _ _ Hd), elem_of_colunas_finais.
      unfold colunas_etapa2 in Hc. rewrite !not_elem_of_cons in Hc.
      destruct Hc as (? & ? & ? & ? & _). split; [|auto].
      intros [_ [?|[?|[?|?]]]]; done.
    - by apply etapa2_Warned in Hd as [-> _]. }
  assert (WBS_ELEMENT ∈ columns t) as HwT by by apply Hct.
  assert (FISCAL_YEAR ∈ columns t) as HfT by by apply Hct.
  assert (coluna_gasto_temp ∉ columns t) as HtT.
  { intros Hin. by apply Hct in Hin; [|apply temp_fora_da_etapa2]. }
  destruct (etapa1_total ga ano (periodos q_i q_f) t Hnd HwT HfT HtT)
    as (t2 & Ht2 & Hct2).
  rewrite Ht2. simpl.
  pose proof (etapa1_legivel _ _ _ _ _ Hnd Ht2 Hct2 Hnum) as Hnumt2.
  apply etapa1_inr in Ht2 as [Hrt2 _]; [|done].
  assert (forall p, p ∈ periodos r_i r_f
                    <-> p ∈ periodos p_i p_f \/ p ∈ periodos q_i q_f) as Hps.
  { intros p. rewrite !elem_of_periodos. apply Hr. }
  assert (forall p, target_col p ∈ columns t <-> target_col p ∈ columns df0)
    as Hcols.
  { intros p. apply Hct, periodo_fora_da_etapa2, target_col_prefix. }
  destruct Hd as [Hd|Hd].
  - (* the table of line 82 *)
    pose proof (etapa2_Returned _ _ Hd) as (Htot & Hne & _).
    assert (Forall2 (fun r r' => forall c, c ∉ colunas_etapa2 ->
                                           r' !! c = r !! c)
                    (rows df2) (rows t2)) as Hag.
    { rewrite Hr2, Hrt2. apply Forall2_fmap.
      eapply Forall2_impl; [exact F|]. simpl. intros r0 x Hx.
      apply (linha_etapa1_duas_vezes ga ano (columns df0) (columns t)
               (periodos p_i p_f) (periodos q_i q_f) (periodos r_i r_f)
               (fun c => c ∉ colunas_etapa2) r0 x Hcols Hps
               temp_fora_da_etapa2 Hkw Hkf
               (fun p => periodo_fora_da_etapa2 _ (target_col_prefix p)) Hx). }
    assert (columns df2 = columns df1) as Hc21 by by rewrite Hc1, Hc2.
    destruct (etapa2_tipado df2) as [_ Hyes2]; try done.
    { by rewrite (colunas_periodo_columns _ _ Hc21). }
    { by rewrite Hc2. }
    { by rewrite Hc2. }
    destruct Hyes2 as [t' Ht']; [by rewrite Hc21|].
    destruct (etapa2_tipado t2) as [_ Hyes3]; try done.
    { by rewrite (colunas_periodo_columns _ _ Hct2),
                 (colunas_periodo_Returned _ _ Hd). }
    { by rewrite Hct2. }
    { by rewrite Hct2. }
    destruct Hyes3 as [t3 Ht3].
    { rewrite Hct2. apply Hct; [apply total_fora_da_etapa2|].
      by rewrite <- Hc1. }
    rewrite Ht3, Ht'. f_equal.
    apply (etapa2_congruente df2 t2 t' t3 Ht' Ht3); [| |exact Hag].
    + by rewrite Hct2, (etapa2_Returned_columns _ _ Hd),
                 colunas_finais_idemp, Hc21.
    + rewrite (colunas_periodo_columns _ _ Hct2),
              (colunas_periodo_Returned _ _ Hd).
      symmetry. by apply colunas_periodo_columns.
  - (* the table of line 69 *)
    apply etapa2_Warned in Hd as [-> Hnil].
    assert (t2 = df2) as ->; [|done].
    apply DataFrame_eq; [by rewrite Hct2, Hc1, Hc2|].
    rewrite Hrt2, Hr2, Hr1, <- list_fmap_compose.
    apply list_fmap_ext. intros i r0 _. simpl. apply map_eq. intros c.
    by apply (linha_etapa1_duas_vezes ga ano (columns df0) (columns df1)
                (periodos p_i p_f) (periodos q_i q_f) (periodos r_i r_f)
                (fun _ => True) r0
                (linha_etapa1 ga ano (columns df0) (periodos p_i p_f) r0)).
Qed.

(** X13. Giving the function a table it returned for a typed budget, with
    the same expenditures, year and periods, changes nothing: the outcome
    is the same, with the same table. *)
Theorem X13_rerun_on_returned_table orc gastos ano p_i p_f t :
  orcamento_tipado orc ->
  devolve (processar_dados_streamlit orc gastos ano p_i p_f) t ->
  processar_dados_streamlit t gastos ano p_i p_f
  = processar_dados_streamlit orc gastos ano p_i p_f.
Proof.
  intros Htip Hd.
  apply (processar_em_duas_vezes orc gastos ano p_i p_f p_i p_f p_i p_f t);
    [done|done|]. intros p. tauto.
Qed.

(** X13 on the scenario of section 8. *)
Lemma X13_rerun_on_returned_table_witness :
  tabela_ex_outra_vez
  = processar_dados_streamlit orcamento_ex gastos_exemplo 2026 1 3.
Proof.
  apply (X13_rerun_on_returned_table orcamento_ex gastos_exemplo 2026 1 3).
  - apply (bool_decide_unpack _). vm_compute. exact I.
  - left. reflexivity.
Defined.

(** X14. The update can be done in two runs. When the function returned a
    table for a typed budget and the periods [p_i .. p_f], giving it that
    table with the same expenditures and year and a range [q_i .. q_f]
    that starts inside or right after the first one and ends at or after
    its end has the outcome of one run on the budget over [p_i .. q_f]. *)
Theorem X14_update_in_two_runs orc gastos ano p_i p_f q_i q_f t :
  orcamento_tipado orc ->
  devolve (processar_dados_streamlit orc gastos ano p_i p_f) t ->
  p_i <= q_i <= p_f + 1 -> p_f <= q_f ->
  processar_dados_streamlit t gastos ano q_i q_f
  = processar_dados_streamlit orc gastos ano p_i q_f.
Proof.
  intros Htip Hd Hq1 Hq2.
  apply (processar_em_duas_vezes orc gastos ano p_i p_f q_i q_f p_i q_f t);
    [done|done|]. intros p. lia.
Qed.

(** X14 on the scenario: period 1 first, then periods 2 and 3. *)
Lemma X14_update_in_two_runs_witness :
  processar_dados_streamlit tabela_periodo_1 gastos_variados 2026 2 3
  = processar_dados_streamlit orcamento_ex gastos_variados 2026 1 3.
Proof.
  apply (X14_update_in_two_runs orcamento_ex gastos_variados 2026 1 1 2 3).
  - apply (bool_decide_unpack _). vm_compute. exact I.
  - left. reflexivity.
  - lia.
  - lia.
Defined.

(** ** A budget without the column of the project codes *)

Lemma etapa2_sem_projeto df :
  WBS_ELEMENT ∉ columns df -> rows df <> [] -> colunas_periodo df <> [] ->
  exists e, etapa2 df = UnexpectedError e.
Proof.
  intros Hw Hr Hne. unfold etapa2.
  destruct (colunas_periodo df) as [|c0 cs]; [done|].
  destruct (assign_res ORCAMENTO_REAL _ df) as [e|df1] eqn:H1; simpl; [eauto|].
  apply assign_res_inr in H1 as [F1 C1].
  assert (has_column df1 WBS_ELEMENT = false) as Hw1.
  { apply has_column_false. rewrite C1.
    destruct (has_column df ORCAMENTO_REAL); [done|].
    rewrite elem_of_app, list_elem_of_singleton. intros [?|?]; [done|].
    discriminate. }
  destruct (rows df1) as [|r1 rs1] eqn:Hr1.
  { apply Forall2_nil_inv_r in F1. done. }
  exists (KeyError WBS_ELEMENT).
  unfold assign_res at 1. rewrite Hr1. simpl.
  unfold transform_sum at 1. by rewrite Hw1.
Qed.

(** X15. A budget without the column [WBS Element]: when it has a row and a
    column matching [Period <digits>], no table comes back and the message
    about the column [Total] is not the one shown; the function ends in the
    catch-all error, whatever else the two tables hold. *)
Theorem X15_budget_without_project_column orc gastos ano p_i p_f :
  WBS_ELEMENT ∉ columns orc -> rows orc <> [] ->
  (exists c, c ∈ columns orc /\ re_match_period c = true) ->
  exists e, processar_dados_streamlit orc gastos ano p_i p_f
            = UnexpectedError e.
Proof.
  intros Hw Hr (c & Hc & Hm).
  destruct (processar_inv orc gastos ano p_i p_f _ eq_refl)
    as [[e He]|(ga & df & Hga & Hdf & Ho)]; [eauto|].
  rewrite <- Ho.
  pose proof (gastos_agrupados_NoDup _ _ Hga) as Hnd.
  apply etapa1_inr in Hdf as [Hrows Hcols]; [|done].
  pose proof (re_match_prefix c Hm) as Hpre.
  apply etapa2_sem_projeto.
  - rewrite Hcols by nomes.
    by intros [_ ?]%elem_of_columns_drop_unnamed.
  - rewrite Hrows. simpl. destruct (rows orc); [done|discriminate].
  - intros Hnil.
    assert (c ∈ colunas_periodo df) as Hin.
    { apply elem_of_colunas_periodo. split; [|done].
      apply Hcols; [outro_nome|].
      apply elem_of_columns_drop_unnamed. split; [|done].
      by apply periodo_nao_unnamed. }
    rewrite Hnil in Hin. by apply elem_of_nil in Hin.
Qed.

(** X15 on a budget without [WBS Element]. *)
Lemma X15_budget_without_project_column_witness :
  exists e, processar_dados_streamlit orcamento_sem_coluna_projeto
              gastos_exemplo 2026 1 3 = UnexpectedError e.
Proof.
  apply X15_budget_without_project_column.
  - apply (bool_decide_unpack _). vm_compute. exact I.
  - discriminate.
  - exists "Period 1". split; [|reflexivity].
    apply (bool_decide_unpack _). vm_compute. exact I.
Defined.

Example sem_projeto_gera_KeyError :
  processar_dados_streamlit orcamento_sem_coluna_projeto gastos_exemplo
    2026 1 3 = UnexpectedError (KeyError WBS_ELEMENT).
Proof. reflexivity. Qed.
